(** * bazel-mcp-server: the command layer of [src/index.ts]

    A shallow embedding of [BazelClient] (the six Bazel operations and the
    promise executor of [runBazelCommand]), of the [CallToolRequestSchema]
    request handler, of [getConfig] and of [log], followed by the properties
    of the specification that were checked against them and by further
    properties read off the code.

    Modelling conventions.
    - JavaScript strings are [string]s (UTF-8 bytes); every character the
      code inspects or inserts is ASCII.
    - An object held in a [private] field or local [let] becomes explicit
      state: [BazelClient] is threaded through the monad [M]; the closure
      variables [stdout], [stderr] of the promise executor are the record
      [Executor].
    - What the host does is an input: the file system as seen by
      [fs.existsSync], [path.join], and the events a spawned child emits.
    - Observable actions (the call of [spawn], each call of the [onOutput]
      callback) are recorded, in order, in a trace.
    - [log] only writes to the console and to the log file and returns
      nothing; its calls are left out of the trace and modelled on their own
      (section Logging), and the sinks are taken not to throw. *)

From Stdlib Require Import String Ascii List ZArith Lia Bool DecimalString.
Import ListNotations.
Local Open Scope list_scope.
Local Open Scope string_scope.

(** ** JavaScript primitives the code relies on *)
Module JS.

(** [new Error(message)]; the handler only ever reads [error.message]. *)
Inductive Error : Type := mkError (message : string).

Definition message (e : Error) : string :=
  match e with mkError m => m end.

(** Truthiness of a string: every string but the empty one. *)
Definition truthy (s : string) : bool := negb (s =? EmptyString).

(** The line feed of the template literals [`${stdout}\n${stderr}`]. *)
Definition LF : string := String "010" EmptyString.

(** The double quote character. *)
Definition DQ : string := String "034" EmptyString.

(** The backslash character. *)
Definition BS : string := String "092" EmptyString.

(** [String(n)] for an integral number. *)
Definition number_toString (n : Z) : string :=
  NilZero.string_of_int (Z.to_int n).

(** [`${code}`] for the [number | null] that the [close] event carries. *)
Definition code_toString (code : option Z) : string :=
  match code with
  | Some n => number_toString n
  | None => "null"
  end.

Definition hex_digit (n : nat) : string :=
  String (nth n ["0"; "1"; "2"; "3"; "4"; "5"; "6"; "7"; "8"; "9";
                 "a"; "b"; "c"; "d"; "e"; "f"]%char "0"%char) EmptyString.

(** QuoteJSONString, one code unit at a time. *)
Definition quote_char (c : ascii) : string :=
  let n := nat_of_ascii c in
  if Nat.eqb n 8 then BS ++ "b"
  else if Nat.eqb n 9 then BS ++ "t"
  else if Nat.eqb n 10 then BS ++ "n"
  else if Nat.eqb n 12 then BS ++ "f"
  else if Nat.eqb n 13 then BS ++ "r"
  else if Nat.eqb n 34 then BS ++ DQ
  else if Nat.eqb n 92 then BS ++ BS
  else if Nat.ltb n 32 then
    BS ++ "u00" ++ hex_digit (n / 16) ++ hex_digit (n mod 16)
  else String c EmptyString.

Fixpoint quote_chars (s : string) : string :=
  match s with
  | EmptyString => EmptyString
  | String c r => quote_char c ++ quote_chars r
  end.

(** [JSON.stringify(s)] for a string [s]. *)
Definition JSON_stringify_string (s : string) : string :=
  DQ ++ quote_chars s ++ DQ.

(** [JSON.stringify({ error: m })]. *)
Definition JSON_stringify_error (m : string) : string :=
  "{" ++ DQ ++ "error" ++ DQ ++ ":" ++ JSON_stringify_string m ++ "}".

(** [s.includes(sub)], as a proposition. *)
Definition includes (s sub : string) : Prop :=
  exists before after, s = before ++ sub ++ after.

End JS.

(** ** [path.join] of a POSIX host (Node's [path.posix]) *)
Module Path.

(** The segments of a path between its separators. *)
Fixpoint split (p : string) : list string :=
  match p with
  | EmptyString => [EmptyString]
  | String c r =>
      if Ascii.eqb c "/" then EmptyString :: split r
      else match split r with
           | seg :: segs => String c seg :: segs
           | [] => [String c EmptyString]
           end
  end.

(** One separator of [normalizeString]; [res] is kept last segment first. *)
Definition segment (allowAboveRoot : bool) (res : list string) (seg : string)
  : list string :=
  if seg =? EmptyString then res
  else if seg =? "." then res
  else if seg =? ".." then
    match res with
    | last :: rest =>
        if last =? ".." then (if allowAboveRoot then ".." :: res else res)
        else rest
    | [] => if allowAboveRoot then [".."] else []
    end
  else seg :: res.

Definition normalizeString (p : string) (allowAboveRoot : bool) : string :=
  String.concat "/" (rev (fold_left (segment allowAboveRoot) (split p) [])).

Fixpoint endsWithSlash (p : string) : bool :=
  match p with
  | EmptyString => false
  | String c EmptyString => Ascii.eqb c "/"
  | String _ r => endsWithSlash r
  end.

Definition normalize (p : string) : string :=
  if p =? EmptyString then "."
  else
    let isAbsolute := String.prefix "/" p in
    let trailingSeparator := endsWithSlash p in
    let q := normalizeString p (negb isAbsolute) in
    if q =? EmptyString then
      (if isAbsolute then "/" else if trailingSeparator then "./" else ".")
    else
      let q := if trailingSeparator then q ++ "/" else q in
      if isAbsolute then "/" ++ q else q.

(** [path.join(a, b)]: empty arguments are skipped. *)
Definition join (a b : string) : string :=
  if a =? EmptyString then
    (if b =? EmptyString then "." else normalize b)
  else if b =? EmptyString then normalize a
  else normalize (a ++ "/" ++ b).

End Path.

(** ** The host: file system and child processes *)

Inductive FileKind : Type := RegularFile | Directory.

(** The two pipes of a child ([stdio: ["ignore", "pipe", "pipe"]]). *)
Inductive Stream : Type := Stdout | Stderr.

(** What a spawned child makes the parent see, in order of arrival: [data]
    on one of its pipes (the chunk is [data.toString()]), [close] with the
    exit code ([null] after a signal), [error] when it could not be started. *)
Inductive ChildEvent : Type :=
| data (s : Stream) (chunk : string)
| close (code : option Z)
| error (err : JS.Error).

(** [spawn] either throws at once (arguments it refuses) or returns a child. *)
Inductive SpawnResult : Type :=
| spawn_throws (e : JS.Error)
| spawned (events : list ChildEvent).

Record Host : Type := mkHost {
  (** what the process can reach at a path, if anything *)
  fs_entry : string -> option FileKind;
  (** [path.join] of the platform *)
  path_join : string -> string -> string;
  (** the child that [spawn(file, args, { cwd })] starts *)
  child : string -> list string -> string -> SpawnResult
}.

(** [fs.existsSync]: true when something, of whatever kind, is there. *)
Definition existsSync (os : Host) (p : string) : bool :=
  match fs_entry os p with
  | Some _ => true
  | None => false
  end.

(** ** Tool definitions *)

Record Tool : Type := mkTool {
  tool_name : string;
  description : string;
  properties : list string;
  required : list string
}.

Definition buildTargetTool : Tool :=
  mkTool "bazel_build_target" "Build specified Bazel targets"
         ["targets"] ["targets"].

Definition queryTargetTool : Tool :=
  mkTool "bazel_query_target"
         "Query the Bazel dependency graph for targets matching a pattern"
         ["pattern"] ["pattern"].

Definition testTargetTool : Tool :=
  mkTool "bazel_test_target" "Run Bazel tests for specified targets"
         ["targets"] ["targets"].

Definition listTargetsTool : Tool :=
  mkTool "bazel_list_targets"
         "List all available Bazel targets under a given path"
         ["path"] ["path"].

Definition fetchDependenciesTool : Tool :=
  mkTool "bazel_fetch_dependencies" "Fetch Bazel external dependencies"
         ["targets"] [].

Definition setWorkspacePathTool : Tool :=
  mkTool "bazel_set_workspace_path"
         "Set the current Bazel workspace path for subsequent commands"
         ["path"] ["path"].

(** The [tools] of the [ListToolsRequestSchema] response. *)
Definition listTools : list Tool :=
  [ buildTargetTool; queryTargetTool; testTargetTool; listTargetsTool;
    fetchDependenciesTool; setWorkspacePathTool ].

(** ** Session state and the monad of the client's methods *)

Record BazelClient : Type := mkBazelClient {
  bazelPath : string;
  workspacePath : string;
  workspaceConfig : option string
}.

(** The observable actions of a call. *)
Inductive Effect : Type :=
| spawn (file : string) (args : list string) (cwd : string)
| onOutput (chunk : string).

(** How a call ends: it returns (a promise fulfils), it throws (a promise
    rejects), or its promise never settles. *)
Inductive Outcome (A : Type) : Type :=
| Returned (a : A)
| Thrown (e : JS.Error)
| Pending.

Arguments Returned {A} a.
Arguments Thrown {A} e.
Arguments Pending {A}.

Record Run (A : Type) : Type := mkRun {
  outcome : Outcome A;
  client : BazelClient;
  trace : list Effect
}.

Arguments mkRun {A} outcome client trace.
Arguments outcome {A} r.
Arguments client {A} r.
Arguments trace {A} r.

Definition M (A : Type) : Type := BazelClient -> Run A.

Definition ret {A : Type} (a : A) : M A :=
  fun this => mkRun (Returned a) this [].

Definition throw {A : Type} (e : JS.Error) : M A :=
  fun this => mkRun (Thrown e) this [].

Definition bind {A B : Type} (m : M A) (k : A -> M B) : M B :=
  fun this =>
    let r := m this in
    match outcome r with
    | Returned a =>
        let r' := k a (client r) in
        mkRun (outcome r') (client r') (trace r ++ trace r')%list
    | Thrown e => mkRun (Thrown e) (client r) (trace r)
    | Pending => mkRun Pending (client r) (trace r)
    end.

(** [try { m } catch (error) { h error }]. *)
Definition try_catch {A : Type} (m : M A) (h : JS.Error -> M A) : M A :=
  fun this =>
    let r := m this in
    match outcome r with
    | Thrown e =>
        let r' := h e (client r) in
        mkRun (outcome r') (client r') (trace r ++ trace r')%list
    | _ => r
    end.

Declare Scope js_scope.
Delimit Scope js_scope with js.
Notation "x <- m ;; k" := (bind m (fun x => k))
  (at level 100, m at next level, right associativity) : js_scope.
Notation "m ;;; k" := (bind m (fun _ => k))
  (at level 100, right associativity) : js_scope.
Local Open Scope js_scope.

(** The invocations a trace holds, as (file, args, cwd). *)
Fixpoint invocations (t : list Effect) : list (string * list string * string) :=
  match t with
  | [] => []
  | spawn file args cwd :: t' => (file, args, cwd) :: invocations t'
  | onOutput _ :: t' => invocations t'
  end.

(** The arguments the [onOutput] callback was called with, in order. *)
Fixpoint callbacks (t : list Effect) : list string :=
  match t with
  | [] => []
  | spawn _ _ _ :: t' => callbacks t'
  | onOutput chunk :: t' => chunk :: callbacks t'
  end.

(** ** [BazelClient] *)

(** The closure variables of the promise executor of [runBazelCommand]:
    the two accumulators, whether (and how) the promise has settled, and
    the callback calls made so far. *)
Record Output : Type := mkOutput {
  stdout : string;
  stderr : string
}.

Inductive Settlement : Type :=
| resolved (r : Output)
| rejected (e : JS.Error).

Record Executor : Type := mkExecutor {
  acc : Output;
  promise : option Settlement;
  calls : list Effect
}.

(** [resolve] and [reject] only act on a promise that has not settled. *)
Definition settle (s : Settlement) (x : Executor) : Executor :=
  match promise x with
  | Some _ => x
  | None => mkExecutor (acc x) (Some s) (calls x)
  end.

(** [if (onOutput) { onOutput(chunk); }] *)
Definition forward (hasOnOutput : bool) (chunk : string) : list Effect :=
  if hasOnOutput then [onOutput chunk] else [].

(** The listeners registered on [process.stdout], [process.stderr] and
    [process]. *)
Definition listener (hasOnOutput : bool) (x : Executor) (ev : ChildEvent)
  : Executor :=
  match ev with
  | data Stdout chunk =>
      mkExecutor (mkOutput (stdout (acc x) ++ chunk) (stderr (acc x)))
                 (promise x)
                 (calls x ++ forward hasOnOutput chunk)%list
  | data Stderr chunk =>
      mkExecutor (mkOutput (stdout (acc x)) (stderr (acc x) ++ chunk))
                 (promise x)
                 (calls x ++ forward hasOnOutput chunk)%list
  | close code =>
      match code with
      | Some 0%Z => settle (resolved (acc x)) x
      | _ =>
          let errorMsg :=
            "Bazel command failed with code " ++ JS.code_toString code
            ++ ": " ++ stderr (acc x) in
          settle (rejected (JS.mkError errorMsg)) x
      end
  | error err => settle (rejected err) x
  end.

Definition listen (hasOnOutput : bool) (events : list ChildEvent) (x : Executor)
  : Executor :=
  fold_left (listener hasOnOutput) events x.

(** [[command, ...args]], with [--bazelrc=...] unshifted when
    [this.workspaceConfig] is truthy. *)
Definition fullArgs (this : BazelClient) (command : string) (args : list string)
  : list string :=
  match workspaceConfig this with
  | Some cfg =>
      if JS.truthy cfg then ("--bazelrc=" ++ cfg) :: command :: args
      else command :: args
  | None => command :: args
  end.

Section Client.

Variable os : Host.

Definition runBazelCommand (command : string) (args : list string)
           (hasOnOutput : bool) : M Output :=
  fun this =>
    let argv := fullArgs this command args in
    let call := spawn (bazelPath this) argv (workspacePath this) in
    match child os (bazelPath this) argv (workspacePath this) with
    | spawn_throws e => mkRun (Thrown e) this [call]
    | spawned events =>
        let x := listen hasOnOutput events
                        (mkExecutor (mkOutput EmptyString EmptyString) None [])
        in
        mkRun (match promise x with
               | Some (resolved r) => Returned r
               | Some (rejected e) => Thrown e
               | None => Pending
               end)
              this (call :: calls x)
    end.

Definition buildTargets (targets : list string) (hasOnOutput : bool)
  : M string :=
  r <- runBazelCommand "build" targets hasOnOutput ;;
  ret (stdout r ++ JS.LF ++ stderr r).

(** [stdout || stderr] *)
Definition queryTarget (pattern : string) (hasOnOutput : bool) : M string :=
  r <- runBazelCommand "query" [pattern] hasOnOutput ;;
  ret (if JS.truthy (stdout r) then stdout r else stderr r).

Definition testTargets (targets : list string) (hasOnOutput : bool)
  : M string :=
  r <- runBazelCommand "test" targets hasOnOutput ;;
  ret (stdout r ++ JS.LF ++ stderr r).

Definition listTargets (path : string) (hasOnOutput : bool) : M string :=
  let queryPattern := path ++ "/..." in
  r <- runBazelCommand "query" [queryPattern] hasOnOutput ;;
  ret (stdout r).

(** [targets] is [undefined] or an array. *)
Definition fetchDependencies (targets : option (list string))
           (hasOnOutput : bool) : M string :=
  let args :=
    match targets with
    | Some (t :: ts) => ("fetch" :: t :: ts)%list
    | _ => ["fetch"; "//..."]
    end in
  r <- runBazelCommand "build" args hasOnOutput ;;
  ret (stdout r ++ JS.LF ++ stderr r).

Definition isWorkspace (newPath : string) : bool :=
  existsSync os (path_join os newPath "WORKSPACE")
  || existsSync os (path_join os newPath "WORKSPACE.bazel")
  || existsSync os (path_join os newPath "MODULE.bazel").

Definition setWorkspacePath (newPath : string) : M string :=
  fun this =>
    if negb (existsSync os newPath) then
      throw (JS.mkError ("Workspace path does not exist: " ++ newPath)) this
    else if negb (isWorkspace newPath) then
      throw (JS.mkError ("Path does not appear to be a Bazel workspace: "
                         ++ newPath)) this
    else
      let oldPath := workspacePath this in
      mkRun (Returned ("Workspace path updated from " ++ oldPath
                       ++ " to " ++ newPath))
            (mkBazelClient (bazelPath this) newPath (workspaceConfig this))
            [].

End Client.

(** ** The [CallToolRequestSchema] request handler *)

(** [request.params.arguments], read through the interfaces
    [BuildTargetArgs], [QueryTargetArgs], [TestTargetArgs], [ListTargetsArgs],
    [FetchDependenciesArgs] and [SetWorkspacePathArgs]: each field is absent
    or of its declared type.  [additionalArgs] is the field the README
    documents; no interface declares it and the handler never reads it. *)
Record ToolArguments : Type := mkToolArguments {
  targets : option (list string);
  pattern : option string;
  path : option string;
  additionalArgs : option (list string)
}.

Record CallToolRequest : Type := mkCallToolRequest {
  name : string;
  arguments : option ToolArguments
}.

(** [{ content: [{ type: "text", text }] }] *)
Inductive CallToolResult : Type := text_content (text : string).

Section Server.

Variable os : Host.

(** The [switch] over [request.params.name]. *)
Definition dispatch (name : string) (args : ToolArguments) : M string :=
  if name =? "build_target" then
    match targets args with
    | Some (t :: ts) => buildTargets os (t :: ts) false
    | _ => throw (JS.mkError "Missing required argument: targets")
    end
  else if name =? "query_target" then
    match pattern args with
    | Some p =>
        if JS.truthy p then queryTarget os p false
        else throw (JS.mkError "Missing required argument: pattern")
    | None => throw (JS.mkError "Missing required argument: pattern")
    end
  else if name =? "test_target" then
    match targets args with
    | Some (t :: ts) => testTargets os (t :: ts) false
    | _ => throw (JS.mkError "Missing required argument: targets")
    end
  else if name =? "list_targets" then
    match path args with
    | Some p =>
        if JS.truthy p then listTargets os p false
        else throw (JS.mkError "Missing required argument: path")
    | None => throw (JS.mkError "Missing required argument: path")
    end
  else if name =? "fetch_dependencies" then
    fetchDependencies os (targets args) false
  else if name =? "set_workspace_path" then
    match path args with
    | Some p =>
        if JS.truthy p then setWorkspacePath os p
        else throw (JS.mkError "Missing required argument: path")
    | None => throw (JS.mkError "Missing required argument: path")
    end
  else throw (JS.mkError ("Unknown tool: " ++ name)).

Definition callTool (request : CallToolRequest) : M CallToolResult :=
  try_catch
    (match arguments request with
     | None => throw (JS.mkError "No arguments provided")
     | Some args =>
         response <- dispatch (name request) args ;;
         ret (text_content response)
     end)
    (fun error =>
       ret (text_content (JS.JSON_stringify_error (JS.message error)))).

End Server.

(** ** Vocabulary of the statements *)

(** A child that only writes: its chunks, each on its pipe, in order. *)
Definition arrivals (chunks : list (Stream * string)) : list ChildEvent :=
  map (fun c => data (fst c) (snd c)) chunks.

Definition same_stream (a b : Stream) : bool :=
  match a, b with
  | Stdout, Stdout | Stderr, Stderr => true
  | _, _ => false
  end.

(** Everything that arrived on one pipe, concatenated. *)
Fixpoint received (s : Stream) (chunks : list (Stream * string)) : string :=
  match chunks with
  | [] => EmptyString
  | (s', chunk) :: rest =>
      if same_stream s s' then chunk ++ received s rest else received s rest
  end.

(** The three workspace markers of [setWorkspacePath]. *)
Definition markers : list string :=
  ["WORKSPACE"; "WORKSPACE.bazel"; "MODULE.bazel"].

(** A decidable [includes], for closed examples. *)
Fixpoint includesb (s sub : string) : bool :=
  String.prefix sub s
  || match s with
     | EmptyString => false
     | String _ r => includesb r sub
     end.

(** Hosts and sessions for the closed examples. *)
Definition file_system (entries : list (string * FileKind)) (p : string)
  : option FileKind :=
  match find (fun e => fst e =? p) entries with
  | Some e => Some (snd e)
  | None => None
  end.

Definition posix_host (entries : list (string * FileKind))
           (events : list ChildEvent) : Host :=
  mkHost (file_system entries) Path.join (fun _ _ _ => spawned events).

Definition session : BazelClient :=
  mkBazelClient "bazel" "/home/dev/project" None.

(** ** Configuration: [getConfig] and the client that [main] builds *)

Module Config.

(** The [config] object of [getConfig]. *)
Record t : Type := mk {
  bazelPath : string;
  workspacePath : string;
  workspaceConfig : option string;
  logPath : string
}.

End Config.

(** The object read from [.bazel-mcp-config.json]: each key is absent or a
    string. *)
Record FileConfig : Type := mkFileConfig {
  bazel_path : option string;
  workspace_path : option string;
  workspace_config : option string;
  log_path : option string
}.

(** The configuration file in [process.cwd()]: not there, there but
    [readFileSync] or [JSON.parse] throws, or parsed. *)
Inductive ConfigFile : Type :=
| no_file
| unreadable
| parsed (fileConfig : FileConfig).

(** What [getConfig] reads from the process: [process.argv.slice(2)],
    [process.env], [process.cwd()] and the configuration file. *)
Record Process : Type := mkProcess {
  process_args : list string;
  process_env : string -> option string;
  process_cwd : string;
  config_file : ConfigFile
}.

(** The value of an optional string when it is truthy. *)
Definition present (v : option string) : option string :=
  match v with
  | Some s => if JS.truthy s then Some s else None
  | None => None
  end.

(** [args.includes(flag)] *)
Definition args_includes (args : list string) (flag : string) : bool :=
  existsb (String.eqb flag) args.

(** The loop over the command line: a flag takes the next argument as its
    value and skips it; a flag in last position has no value and sets
    nothing; anything else is passed over. *)
Fixpoint parseArgs (args : list string) (config : Config.t) : Config.t :=
  match args with
  | [] => config
  | arg :: rest =>
      match rest with
      | value :: rest' =>
          if arg =? "--bazel_path" then
            parseArgs rest'
              (Config.mk value (Config.workspacePath config)
                         (Config.workspaceConfig config)
                         (Config.logPath config))
          else if arg =? "--workspace_path" then
            parseArgs rest'
              (Config.mk (Config.bazelPath config) value
                         (Config.workspaceConfig config)
                         (Config.logPath config))
          else if arg =? "--workspace_config" then
            parseArgs rest'
              (Config.mk (Config.bazelPath config)
                         (Config.workspacePath config) (Some value)
                         (Config.logPath config))
          else if arg =? "--log_path" then
            parseArgs rest'
              (Config.mk (Config.bazelPath config)
                         (Config.workspacePath config)
                         (Config.workspaceConfig config) value)
          else parseArgs rest config
      | [] => config
      end
  end.

(** The overrides from the environment. *)
Definition envOverrides (env : string -> option string) (config : Config.t)
  : Config.t :=
  let config :=
    match present (env "MCP_BAZEL_PATH") with
    | Some v => Config.mk v (Config.workspacePath config)
                          (Config.workspaceConfig config)
                          (Config.logPath config)
    | None => config
    end in
  let config :=
    match present (env "MCP_WORKSPACE_PATH") with
    | Some v => Config.mk (Config.bazelPath config) v
                          (Config.workspaceConfig config)
                          (Config.logPath config)
    | None => config
    end in
  let config :=
    match present (env "MCP_WORKSPACE_CONFIG") with
    | Some v => Config.mk (Config.bazelPath config)
                          (Config.workspacePath config) (Some v)
                          (Config.logPath config)
    | None => config
    end in
  match present (env "MCP_LOG_PATH") with
  | Some v => Config.mk (Config.bazelPath config)
                        (Config.workspacePath config)
                        (Config.workspaceConfig config) v
  | None => config
  end.

(** [!process.env.X && !args.includes(flag) && fileConfig.key] *)
Definition fromFile (env : string -> option string) (args : list string)
           (variable flag : string) (key : option string) : option string :=
  match present (env variable) with
  | Some _ => None
  | None => if args_includes args flag then None else present key
  end.

(** The keys taken from the configuration file. *)
Definition fileDefaults (env : string -> option string) (args : list string)
           (fileConfig : FileConfig) (config : Config.t) : Config.t :=
  let config :=
    match fromFile env args "MCP_BAZEL_PATH" "--bazel_path"
                   (bazel_path fileConfig) with
    | Some v => Config.mk v (Config.workspacePath config)
                          (Config.workspaceConfig config)
                          (Config.logPath config)
    | None => config
    end in
  let config :=
    match fromFile env args "MCP_WORKSPACE_PATH" "--workspace_path"
                   (workspace_path fileConfig) with
    | Some v => Config.mk (Config.bazelPath config) v
                          (Config.workspaceConfig config)
                          (Config.logPath config)
    | None => config
    end in
  let config :=
    match fromFile env args "MCP_WORKSPACE_CONFIG" "--workspace_config"
                   (workspace_config fileConfig) with
    | Some v => Config.mk (Config.bazelPath config)
                          (Config.workspacePath config) (Some v)
                          (Config.logPath config)
    | None => config
    end in
  match fromFile env args "MCP_LOG_PATH" "--log_path"
                 (log_path fileConfig) with
  | Some v => Config.mk (Config.bazelPath config)
                        (Config.workspacePath config)
                        (Config.workspaceConfig config) v
  | None => config
  end.

(** [getConfig()]; the global [logPath] is the [logPath] of its result. *)
Definition getConfig (p : Process) : Config.t :=
  let args := process_args p in
  let config :=
    parseArgs args (Config.mk "bazel" (process_cwd p) None EmptyString) in
  let config := envOverrides (process_env p) config in
  match config_file p with
  | parsed fileConfig => fileDefaults (process_env p) args fileConfig config
  | _ => config
  end.

(** The [bazelClient] of [main]. *)
Definition main_bazelClient (p : Process) : BazelClient :=
  let config := getConfig p in
  mkBazelClient (Config.bazelPath config) (Config.workspacePath config)
                (Config.workspaceConfig config).

(** The four settings of the configuration, with the command-line flag,
    the environment variable and the file key of each. *)
Inductive Setting : Type := BazelPath | WorkspacePath | WorkspaceConfig | LogPath.

Definition flag (k : Setting) : string :=
  match k with
  | BazelPath => "--bazel_path"
  | WorkspacePath => "--workspace_path"
  | WorkspaceConfig => "--workspace_config"
  | LogPath => "--log_path"
  end.

Definition variable (k : Setting) : string :=
  match k with
  | BazelPath => "MCP_BAZEL_PATH"
  | WorkspacePath => "MCP_WORKSPACE_PATH"
  | WorkspaceConfig => "MCP_WORKSPACE_CONFIG"
  | LogPath => "MCP_LOG_PATH"
  end.

Definition file_key (k : Setting) (fileConfig : FileConfig) : option string :=
  match k with
  | BazelPath => bazel_path fileConfig
  | WorkspacePath => workspace_path fileConfig
  | WorkspaceConfig => workspace_config fileConfig
  | LogPath => log_path fileConfig
  end.

(** The value a configuration holds for a setting ([workspaceConfig] may be
    undefined). *)
Definition setting (k : Setting) (config : Config.t) : option string :=
  match k with
  | BazelPath => Some (Config.bazelPath config)
  | WorkspacePath => Some (Config.workspacePath config)
  | WorkspaceConfig => Config.workspaceConfig config
  | LogPath => Some (Config.logPath config)
  end.

(** [config.<setting> = value] *)
Definition assign (config : Config.t) (kv : Setting * string) : Config.t :=
  match fst kv with
  | BazelPath =>
      Config.mk (snd kv) (Config.workspacePath config)
                (Config.workspaceConfig config) (Config.logPath config)
  | WorkspacePath =>
      Config.mk (Config.bazelPath config) (snd kv)
                (Config.workspaceConfig config) (Config.logPath config)
  | WorkspaceConfig =>
      Config.mk (Config.bazelPath config) (Config.workspacePath config)
                (Some (snd kv)) (Config.logPath config)
  | LogPath =>
      Config.mk (Config.bazelPath config) (Config.workspacePath config)
                (Config.workspaceConfig config) (snd kv)
  end.

(** A command line made of flag and value pairs. *)
Definition command_line (pairs : list (Setting * string)) : list string :=
  flat_map (fun kv => [flag (fst kv); snd kv]) pairs.

(** The configuration [getConfig] starts from. *)
Definition defaults (cwd : string) : Config.t :=
  Config.mk "bazel" cwd None EmptyString.

(** ** Logging *)

Module Log.

Inductive Level : Type := info | error.

(** One call [log(message, level, toConsole)]. *)
Record Call : Type := mk {
  message : string;
  level : Level;
  toConsole : bool
}.

(** What a call writes: a line appended to the log file, a line on the
    console's error stream. *)
Inductive Write : Type :=
| appendFileSync (file text : string)
| console_error (line : string).

End Log.

(** [log], with the global [logPath], [process.env.DEBUG] and the time of
    the call. *)
Definition log (logPath : string) (DEBUG : option string) (timestamp : string)
           (c : Log.Call) : list Log.Write :=
  let logMessage := timestamp ++ ": " ++ Log.message c in
  ((if JS.truthy logPath
    then [Log.appendFileSync logPath (logMessage ++ JS.LF)] else [])
   ++
   (if Log.toConsole c then
      match Log.level c with
      | Log.error => [Log.console_error logMessage]
      | Log.info =>
          match present DEBUG with
          | Some _ => [Log.console_error logMessage]
          | None => []
          end
      end
    else []))%list.

(** A sequence of calls, the call of index [n] made at time [clock n]. *)
Fixpoint log_all (logPath : string) (DEBUG : option string)
         (clock : nat -> string) (n : nat) (cs : list Log.Call)
  : list Log.Write :=
  match cs with
  | [] => []
  | c :: cs' =>
      (log logPath DEBUG (clock n) c
       ++ log_all logPath DEBUG clock (S n) cs')%list
  end.

(** The [log] calls of one listener, [x] being the executor's variables
    when the event arrives. *)
Definition listener_log (x : Executor) (ev : ChildEvent) : list Log.Call :=
  match ev with
  | data Stdout chunk => [Log.mk ("STDOUT: " ++ chunk) Log.info false]
  | data Stderr chunk => [Log.mk ("STDERR: " ++ chunk) Log.info false]
  | close code =>
      Log.mk ("Command completed with exit code: " ++ JS.code_toString code)
             Log.info true
      :: match code with
         | Some 0%Z => []
         | _ =>
             [Log.mk ("Bazel command failed with code "
                      ++ JS.code_toString code ++ ": " ++ stderr (acc x))
                     Log.error true]
         end
  | error err =>
      [Log.mk ("Command execution error: " ++ JS.message err) Log.error true]
  end.

Fixpoint listen_log (hasOnOutput : bool) (events : list ChildEvent)
         (x : Executor) : list Log.Call :=
  match events with
  | [] => []
  | ev :: rest =>
      (listener_log x ev
       ++ listen_log hasOnOutput rest (listener hasOnOutput x ev))%list
  end.

(** The [log] calls of [runBazelCommand], in order. *)
Definition runBazelCommand_log (os : Host) (command : string)
           (args : list string) (hasOnOutput : bool) (this : BazelClient)
  : list Log.Call :=
  let argv := fullArgs this command args in
  let cmdString := bazelPath this ++ " " ++ String.concat " " argv in
  Log.mk ("Running command: " ++ cmdString ++ " in directory: "
          ++ workspacePath this) Log.info true
  :: match child os (bazelPath this) argv (workspacePath this) with
     | spawn_throws _ => []
     | spawned events =>
         listen_log hasOnOutput events
                    (mkExecutor (mkOutput EmptyString EmptyString) None [])
     end.

(** The lines a sequence of writes leaves on the console. *)
Fixpoint console_lines (ws : list Log.Write) : list string :=
  match ws with
  | [] => []
  | Log.console_error line :: ws' => line :: console_lines ws'
  | Log.appendFileSync _ _ :: ws' => console_lines ws'
  end.

(** The text a sequence of writes appends to the log file. *)
Fixpoint file_text (ws : list Log.Write) : list string :=
  match ws with
  | [] => []
  | Log.appendFileSync _ text :: ws' => text :: file_text ws'
  | Log.console_error _ :: ws' => file_text ws'
  end.

(** The label of a pipe in the log. *)
Definition stream_label (s : Stream) : string :=
  match s with
  | Stdout => "STDOUT"
  | Stderr => "STDERR"
  end.

(** The lines the chunks of a child leave in the log file, the first of
    them written at time [clock n]. *)
Fixpoint chunk_lines (clock : nat -> string) (n : nat)
         (chunks : list (Stream * string)) : list string :=
  match chunks with
  | [] => []
  | (s, chunk) :: rest =>
      (clock n ++ ": " ++ stream_label s ++ ": " ++ chunk ++ JS.LF)
      :: chunk_lines clock (S n) rest
  end.

(** The chunks of the [data] events of a child, in order. *)
Fixpoint data_chunks (events : list ChildEvent) : list string :=
  match events with
  | [] => []
  | data _ chunk :: rest => chunk :: data_chunks rest
  | _ :: rest => data_chunks rest
  end.

(** Whether an event settles the promise. *)
Definition settles (ev : ChildEvent) : bool :=
  match ev with
  | data _ _ => false
  | close _ | error _ => true
  end.

(** The six names the [switch] of the handler has a case for. *)
Definition dispatched : list string :=
  ["build_target"; "query_target"; "test_target"; "list_targets";
   "fetch_dependencies"; "set_workspace_path"].

(** ** Auxiliary facts *)

Lemma append_nil_r (s : string) : s ++ EmptyString = s.
Proof.
  induction s as [|c s IH]; simpl.
  - reflexivity.
  - now rewrite IH.
Qed.

Lemma append_assoc (s t u : string) : (s ++ t) ++ u = s ++ t ++ u.
Proof.
  induction s as [|c s IH]; simpl.
  - reflexivity.
  - now rewrite IH.
Qed.

Lemma prefix_append (sub rest : string) : String.prefix sub (sub ++ rest) = true.
Proof.
  induction sub as [|c sub IH]; simpl.
  - now destruct rest.
  - destruct (ascii_dec c c) as [_|ne]; [exact IH | now elim ne].
Qed.

Lemma includesb_unfold (s sub : string) :
  includesb s sub
  = (String.prefix sub s
     || match s with
        | EmptyString => false
        | String _ r => includesb r sub
        end).
Proof. now destruct s. Qed.

Lemma includes_includesb (s sub : string) :
  JS.includes s sub -> includesb s sub = true.
Proof.
  intros (before & rest & ->).
  induction before as [|c before IH].
  - rewrite includesb_unfold. simpl. now rewrite prefix_append.
  - rewrite includesb_unfold. simpl. rewrite IH. apply orb_true_r.
Qed.

Lemma includes_suffix (before s : string) : JS.includes (before ++ s) s.
Proof.
  exists before, EmptyString. now rewrite append_nil_r.
Qed.

(** The listeners over a run of [data] events: both accumulators grow by
    what arrived on their pipe, every chunk is forwarded, and the promise
    is left as it was. *)
Lemma listen_arrivals (hasOnOutput : bool) (chunks : list (Stream * string)) :
  forall x : Executor,
    listen hasOnOutput (arrivals chunks) x
    = mkExecutor
        (mkOutput (stdout (acc x) ++ received Stdout chunks)
                  (stderr (acc x) ++ received Stderr chunks))
        (promise x)
        (calls x ++ flat_map (fun c => forward hasOnOutput (snd c)) chunks)%list.
Proof.
  unfold listen.
  induction chunks as [|[s chunk] chunks IH]; intros [[out err] p cs]; simpl.
  - now rewrite !append_nil_r, app_nil_r.
  - rewrite IH. destruct s; simpl;
      now rewrite ?append_assoc, <- ?app_assoc.
Qed.

Lemma listen_app (hasOnOutput : bool) (evs evs' : list ChildEvent)
      (x : Executor) :
  listen hasOnOutput (evs ++ evs')%list x
  = listen hasOnOutput evs' (listen hasOnOutput evs x).
Proof. unfold listen. apply fold_left_app. Qed.

(** Once settled, a promise keeps its settlement. *)
Lemma listen_settled (hasOnOutput : bool) (evs : list ChildEvent) :
  forall (x : Executor) (s : Settlement),
    promise x = Some s -> promise (listen hasOnOutput evs x) = Some s.
Proof.
  unfold listen.
  induction evs as [|ev evs IH]; intros x s Hx; simpl.
  - exact Hx.
  - apply IH. destruct ev as [[|] chunk|code|err]; simpl; try exact Hx.
    + destruct code as [[| |]|]; unfold settle; now rewrite Hx.
    + unfold settle; now rewrite Hx.
Qed.

(** The settlement of a child that writes [chunks] and then closes. *)
Lemma promise_after_close (hasOnOutput : bool)
      (chunks : list (Stream * string)) (code : option Z)
      (rest : list ChildEvent) :
  promise (listen hasOnOutput (arrivals chunks ++ close code :: rest)%list
                  (mkExecutor (mkOutput EmptyString EmptyString) None []))
  = Some (match code with
          | Some 0%Z =>
              resolved (mkOutput (received Stdout chunks)
                                 (received Stderr chunks))
          | _ =>
              rejected (JS.mkError ("Bazel command failed with code "
                                    ++ JS.code_toString code ++ ": "
                                    ++ received Stderr chunks))
          end).
Proof.
  rewrite listen_app, listen_arrivals. simpl.
  apply listen_settled.
  destruct code as [[| |]|]; reflexivity.
Qed.



(** The listeners never call [spawn]. *)
Lemma invocations_listen (hasOnOutput : bool) (evs : list ChildEvent) :
  forall x : Executor,
    invocations (calls x) = [] ->
    invocations (calls (listen hasOnOutput evs x)) = [].
Proof.
  unfold listen.
  assert (Happ : forall t chunk,
             invocations t = [] ->
             invocations (t ++ forward hasOnOutput chunk)%list = []).
  { intros t chunk Ht. induction t as [|[f a c|ch] t IHt]; simpl in *.
    - now destruct hasOnOutput.
    - discriminate.
    - now apply IHt. }
  induction evs as [|ev evs IH]; intros x Hx; simpl.
  - exact Hx.
  - apply IH. destruct ev as [[|] chunk|code|err]; simpl.
    + now apply Happ.
    + now apply Happ.
    + destruct code as [[| |]|]; unfold settle; now destruct (promise x).
    + unfold settle; now destruct (promise x).
Qed.

(** [runBazelCommand] calls [spawn] exactly once, whatever the child does. *)
Lemma runBazelCommand_invocations (os : Host) (command : string)
      (args : list string) (hasOnOutput : bool) (this : BazelClient) :
  invocations (trace (runBazelCommand os command args hasOnOutput this))
  = [(bazelPath this, fullArgs this command args, workspacePath this)].
Proof.
  unfold runBazelCommand.
  destruct (child os _ _ _) as [e|events]; simpl.
  - reflexivity.
  - now rewrite invocations_listen.
Qed.

(** [runBazelCommand] leaves the session as it found it. *)
Lemma runBazelCommand_client (os : Host) (command : string)
      (args : list string) (hasOnOutput : bool) (this : BazelClient) :
  client (runBazelCommand os command args hasOnOutput this) = this.
Proof.
  unfold runBazelCommand. now destruct (child os _ _ _).
Qed.

(** A result computed from the output of [runBazelCommand]. *)
Lemma bind_runBazelCommand (os : Host) (command : string) (args : list string)
      (hasOnOutput : bool) (this : BazelClient) (f : Output -> string) :
  let r := runBazelCommand os command args hasOnOutput this in
  let r' := (bind (runBazelCommand os command args hasOnOutput)
                  (fun o => ret (f o))) this in
  trace r' = trace r
  /\ client r' = this
  /\ outcome r' = match outcome r with
                  | Returned o => Returned (f o)
                  | Thrown e => Thrown e
                  | Pending => Pending
                  end.
Proof.
  cbv zeta. unfold bind, ret.
  pose proof (runBazelCommand_client os command args hasOnOutput this) as Hc.
  destruct (outcome (runBazelCommand os command args hasOnOutput this));
    simpl; rewrite ?app_nil_r, ?Hc; auto.
Qed.

(** The outcome of [runBazelCommand] when the child writes [chunks] and then
    closes with an exit code. *)
Lemma runBazelCommand_after_close
      (os : Host) (this : BazelClient) (command : string)
      (args : list string) (hasOnOutput : bool)
      (chunks : list (Stream * string)) (code : Z) (rest : list ChildEvent) :
  child os (bazelPath this) (fullArgs this command args) (workspacePath this)
  = spawned (arrivals chunks ++ close (Some code) :: rest)%list ->
  outcome (runBazelCommand os command args hasOnOutput this)
  = match code with
    | 0%Z => Returned (mkOutput (received Stdout chunks)
                                (received Stderr chunks))
    | _ => Thrown (JS.mkError ("Bazel command failed with code "
                               ++ JS.number_toString code ++ ": "
                               ++ received Stderr chunks))
    end.
Proof.
  intros H. unfold runBazelCommand. rewrite H. simpl.
  rewrite promise_after_close. now destruct code.
Qed.

(** ** The command executor: exit codes and streaming *)

(** C5.  When the child writes its chunks and closes with a nonzero exit
    code, the call fails with the error
    [Bazel command failed with code <code>: <stderr>]: the message holds the
    exit code and everything that arrived on stderr, and it is built from
    those two alone, so that what arrived on stdout is no part of it (another
    run with the same code and the same stderr text fails with the same
    error, whatever its stdout).  When the child closes with code 0 the call
    resolves with both accumulators in full. *)
Theorem close_code_decides_result
        (os : Host) (this : BazelClient) (command : string)
        (args : list string) (hasOnOutput : bool)
        (chunks : list (Stream * string)) (code : Z)
        (rest : list ChildEvent) :
  child os (bazelPath this) (fullArgs this command args) (workspacePath this)
  = spawned (arrivals chunks ++ close (Some code) :: rest)%list ->
  let r := runBazelCommand os command args hasOnOutput this in
  (code <> 0%Z ->
   exists msg : string,
     outcome r = Thrown (JS.mkError msg)
     /\ msg = "Bazel command failed with code " ++ JS.number_toString code
              ++ ": " ++ received Stderr chunks
     /\ JS.includes msg (JS.number_toString code)
     /\ JS.includes msg (received Stderr chunks)
     /\ forall (os' : Host) (chunks' : list (Stream * string))
               (rest' : list ChildEvent),
         child os' (bazelPath this) (fullArgs this command args)
               (workspacePath this)
         = spawned (arrivals chunks' ++ close (Some code) :: rest')%list ->
         received Stderr chunks' = received Stderr chunks ->
         outcome (runBazelCommand os' command args hasOnOutput this)
         = Thrown (JS.mkError msg))
  /\ (code = 0%Z ->
      outcome r = Returned (mkOutput (received Stdout chunks)
                                     (received Stderr chunks))).
Proof.
  intros Hchild r.
  pose proof (fun os' chunks' rest' =>
                runBazelCommand_after_close os' this command args hasOnOutput
                                            chunks' code rest') as Hrun.
  split.
  - intros Hcode.
    exists ("Bazel command failed with code " ++ JS.number_toString code
            ++ ": " ++ received Stderr chunks).
    repeat split.
    + subst r. rewrite (Hrun _ _ _ Hchild). now destruct code.
    + exists "Bazel command failed with code ", (": " ++ received Stderr chunks).
      reflexivity.
    + rewrite <- !append_assoc. apply includes_suffix.
    + intros os' chunks' rest' H Heq. rewrite (Hrun _ _ _ H), Heq.
      now destruct code.
  - intros ->. subst r. now rewrite (Hrun _ _ _ Hchild).
Qed.

(** The nonzero-exit scenario of the specification: ["partial"] on stdout,
    ["boom"] on stderr, exit code 1. *)
Lemma close_code_decides_result_witness :
  outcome (runBazelCommand
             (posix_host [] [data Stdout "partial"; data Stderr "boom";
                             close (Some 1%Z)])
             "build" ["//app:server"] false session)
  = Thrown (JS.mkError "Bazel command failed with code 1: boom")
  /\ ~ JS.includes "Bazel command failed with code 1: boom" "partial".
Proof.
  split.
  - destruct (close_code_decides_result
                (posix_host [] [data Stdout "partial"; data Stderr "boom";
                                close (Some 1%Z)])
                session "build" ["//app:server"] false
                [(Stdout, "partial"); (Stderr, "boom")] 1%Z [] eq_refl)
      as [Hfail _].
    destruct (Hfail ltac:(discriminate)) as (msg & Hout & Hmsg & _).
    rewrite Hout, Hmsg. reflexivity.
  - intros H. apply includes_includesb in H. discriminate H.
Defined.




(** ** The operations of the session *)



(** C7.  When the query invocation for a pattern succeeds with accumulated
    streams [out], [queryTarget] returns [stdout] when it is non-empty and
    [stderr] when stdout is empty; the result is therefore non-empty as soon
    as one of the two streams is. *)
Theorem queryTarget_stdout_else_stderr
        (os : Host) (this : BazelClient) (pattern : string)
        (hasOnOutput : bool) (out : Output) :
  outcome (runBazelCommand os "query" [pattern] hasOnOutput this)
  = Returned out ->
  exists result : string,
    outcome (queryTarget os pattern hasOnOutput this) = Returned result
    /\ (stdout out <> EmptyString -> result = stdout out)
    /\ (stdout out = EmptyString -> result = stderr out)
    /\ (stdout out <> EmptyString \/ stderr out <> EmptyString ->
        result <> EmptyString).
Proof.
  intros Hrun.
  destruct (bind_runBazelCommand os "query" [pattern] hasOnOutput this
              (fun o => if JS.truthy (stdout o) then stdout o else stderr o))
    as (_ & _ & Hout).
  fold (queryTarget os pattern hasOnOutput this) in Hout.
  rewrite Hrun in Hout.
  eexists. split; [exact Hout|].
  unfold JS.truthy.
  destruct (String.eqb_spec (stdout out) EmptyString) as [He|Hne]; simpl.
  - repeat split.
    + intros H. now elim H.
    + intros [H|H]; [now elim H | exact H].
  - repeat split.
    + intros H. now elim Hne.
    + intros _. exact Hne.
Qed.

(** A query whose matches are reported on stderr only. *)
Lemma queryTarget_stdout_else_stderr_witness :
  outcome (queryTarget
             (posix_host [] [data Stderr "//app:server"; close (Some 0%Z)])
             "deps(//app:server)" false session)
  = Returned "//app:server".
Proof.
  destruct (queryTarget_stdout_else_stderr
              (posix_host [] [data Stderr "//app:server"; close (Some 0%Z)])
              session "deps(//app:server)" false
              (mkOutput EmptyString "//app:server") eq_refl)
    as (result & Hout & _ & Hempty & _).
  rewrite Hout. now rewrite (Hempty eq_refl).
Defined.

(** C1, on the code.  [fetchDependencies] starts its argument list with the
    literal ["fetch"] and hands it to the [build] subcommand: the one
    invocation it issues has the argument vector
    [["build", "fetch", ...targets]] for a non-empty target list and
    [["build", "fetch", "//..."]] for an empty or absent one, so an argument
    that is neither the subcommand nor a target is passed to Bazel. *)
Theorem fetchDependencies_argv
        (os : Host) (file cwd : string) (hasOnOutput : bool)
        (t : string) (ts : list string) :
  let this := mkBazelClient file cwd None in
  invocations (trace (fetchDependencies os (Some (t :: ts)) hasOnOutput this))
  = [(file, "build" :: "fetch" :: t :: ts, cwd)]
  /\ invocations (trace (fetchDependencies os (Some []) hasOnOutput this))
     = [(file, ["build"; "fetch"; "//..."], cwd)]
  /\ invocations (trace (fetchDependencies os None hasOnOutput this))
     = [(file, ["build"; "fetch"; "//..."], cwd)].
Proof.
  intros this.
  repeat split; unfold fetchDependencies;
    match goal with
    | |- context [bind (runBazelCommand os ?c ?a ?h) (fun o => ret (@?f o))] =>
        destruct (bind_runBazelCommand os c a h this f) as (-> & _ & _)
    end;
    apply runBazelCommand_invocations.
Qed.

(** C9, on the code.  [listTargets] queries the pattern [path + "/..."] and
    returns stdout alone; for the path ["//"], which the tool description
    gives for listing all targets, the pattern sent to Bazel is ["///..."],
    with a separator more than the form ["//..."]. *)
Theorem listTargets_root_pattern
        (os : Host) (file cwd : string) (hasOnOutput : bool) :
  let this := mkBazelClient file cwd None in
  invocations (trace (listTargets os "//" hasOnOutput this))
  = [(file, ["query"; "///..."], cwd)]
  /\ (forall path : string,
         invocations (trace (listTargets os path hasOnOutput this))
         = [(file, ["query"; path ++ "/..."], cwd)])
  /\ (forall (path : string) (out : Output),
         outcome (runBazelCommand os "query" [path ++ "/..."] hasOnOutput this)
         = Returned out ->
         outcome (listTargets os path hasOnOutput this)
         = Returned (stdout out)).
Proof.
  intros this.
  assert (Hinv : forall path : string,
             invocations (trace (listTargets os path hasOnOutput this))
             = [(file, ["query"; path ++ "/..."], cwd)]).
  { intros path. unfold listTargets.
    destruct (bind_runBazelCommand os "query" [path ++ "/..."] hasOnOutput
                                   this stdout) as (-> & _ & _).
    apply runBazelCommand_invocations. }
  repeat split.
  - exact (Hinv "//").
  - exact Hinv.
  - intros path out Hrun. unfold listTargets.
    destruct (bind_runBazelCommand os "query" [path ++ "/..."] hasOnOutput
                                   this stdout) as (_ & _ & ->).
    now rewrite Hrun.
Qed.

(** ** Switching the workspace *)

(** [isWorkspace] holds exactly when one of the three markers exists
    directly under the path. *)
Lemma isWorkspace_markers (os : Host) (newPath : string) :
  isWorkspace os newPath = true
  <-> exists m : string,
      In m markers /\ existsSync os (path_join os newPath m) = true.
Proof.
  unfold isWorkspace, markers. rewrite !orb_true_iff. split.
  - intros [[H|H]|H]; eexists; (split; [|exact H]); simpl; auto.
  - intros (m & [<-|[<-|[<-|[]]]] & H); auto.
Qed.

(** C10.  When [p] is an existing directory with at least one of the three
    markers directly under it, two calls of [setWorkspacePath p] in a row
    both succeed, neither spawns a process, and the session after the
    second call is the session after the first: its working directory is
    [p], its binary path and configuration override are untouched. *)
Theorem setWorkspacePath_twice
        (os : Host) (this : BazelClient) (p : string) :
  fs_entry os p = Some Directory ->
  (exists m : string,
      In m markers /\ existsSync os (path_join os p m) = true) ->
  let first := setWorkspacePath os p this in
  let second := setWorkspacePath os p (client first) in
  outcome first
  = Returned ("Workspace path updated from " ++ workspacePath this
              ++ " to " ++ p)
  /\ outcome second
     = Returned ("Workspace path updated from " ++ p ++ " to " ++ p)
  /\ client second = client first
  /\ client first = mkBazelClient (bazelPath this) p (workspaceConfig this)
  /\ trace first = [] /\ trace second = [].
Proof.
  intros Hdir Hmark first second.
  apply isWorkspace_markers in Hmark.
  subst first second. unfold setWorkspacePath, existsSync.
  rewrite Hdir, Hmark. simpl.
  repeat split.
Qed.

Lemma setWorkspacePath_twice_witness :
  let os := posix_host [("/srv/monorepo", Directory);
                        ("/srv/monorepo/MODULE.bazel", RegularFile)] [] in
  let first := setWorkspacePath os "/srv/monorepo" session in
  let second := setWorkspacePath os "/srv/monorepo" (client first) in
  outcome second
  = Returned "Workspace path updated from /srv/monorepo to /srv/monorepo"
  /\ client second = mkBazelClient "bazel" "/srv/monorepo" None.
Proof.
  intros os first second.
  destruct (setWorkspacePath_twice os session "/srv/monorepo" eq_refl)
    as (_ & H2 & Hsame & Hfirst & _).
  - exists "MODULE.bazel". split; [simpl; auto | reflexivity].
  - split; [exact H2 | ].
    subst second first. now rewrite Hsame, Hfirst.
Defined.

(** C4, as the code has it.  [setWorkspacePath] fails with
    [Workspace path does not exist: <path>] whenever nothing exists at the
    path ([fs.existsSync] is false); when something exists there, directory
    or not, it fails with [Path does not appear to be a Bazel workspace:
    <path>] whenever none of the three markers [WORKSPACE],
    [WORKSPACE.bazel], [MODULE.bazel] exists directly under it.  In both
    failures the session is left as it was and no process is spawned. *)
Theorem setWorkspacePath_rejects
        (os : Host) (this : BazelClient) (newPath : string) :
  let r := setWorkspacePath os newPath this in
  (existsSync os newPath = false ->
   r = mkRun (Thrown (JS.mkError ("Workspace path does not exist: "
                                  ++ newPath)))
             this [])
  /\ (existsSync os newPath = true ->
      (forall m : string,
          In m markers -> existsSync os (path_join os newPath m) = false) ->
      r = mkRun (Thrown (JS.mkError
                           ("Path does not appear to be a Bazel workspace: "
                            ++ newPath)))
                this []).
Proof.
  intros r. subst r. unfold setWorkspacePath. split.
  - intros ->. reflexivity.
  - intros -> Hnone.
    assert (Hw : isWorkspace os newPath = false).
    { unfold isWorkspace.
      rewrite !Hnone by (unfold markers; simpl; auto). reflexivity. }
    rewrite Hw. reflexivity.
Qed.

(** The two failure scenarios of the specification: a path that does not
    exist, and an existing directory without any marker. *)
Lemma setWorkspacePath_rejects_witness :
  let os := posix_host [("/tmp/empty-dir", Directory)] [] in
  setWorkspacePath os "/nonexistent" session
  = mkRun (Thrown (JS.mkError "Workspace path does not exist: /nonexistent"))
          session []
  /\ setWorkspacePath os "/tmp/empty-dir" session
     = mkRun (Thrown (JS.mkError
                "Path does not appear to be a Bazel workspace: /tmp/empty-dir"))
             session [].
Proof.
  intros os. split.
  - exact (proj1 (setWorkspacePath_rejects os session "/nonexistent")
                 eq_refl).
  - apply (proj2 (setWorkspacePath_rejects os session "/tmp/empty-dir")
                 eq_refl).
    intros m [<-|[<-|[<-|[]]]]; reflexivity.
Defined.

(** C4, as stated, fails: a path that is a regular file is not a directory,
    yet the call does not fail with the "does not exist" error; it goes on
    to the marker check. *)
Lemma setWorkspacePath_regular_file :
  let os := posix_host [("/home/dev/notes.txt", RegularFile)] [] in
  fs_entry os "/home/dev/notes.txt" <> Some Directory
  /\ outcome (setWorkspacePath os "/home/dev/notes.txt" session)
     = Thrown (JS.mkError
         "Path does not appear to be a Bazel workspace: /home/dev/notes.txt")
  /\ ~ JS.includes
         "Path does not appear to be a Bazel workspace: /home/dev/notes.txt"
         "does not exist".
Proof.
  intros os. repeat split.
  - discriminate.
  - intros H. apply includes_includesb in H. discriminate H.
Qed.

(** ** The request handler *)

(** The text of the failure payload, written out:
    [{"error":"<message>"}]. *)
Definition error_payload (message : string) : CallToolResult :=
  text_content ("{" ++ JS.DQ ++ "error" ++ JS.DQ ++ ":" ++ JS.DQ
                ++ message ++ JS.DQ ++ "}").

(** C2, as the code has it.  For a call whose tool name is one of the six
    names of the tool list, the [switch] matches none of its cases.  When
    the call carries an arguments object the handler resolves with the
    failure payload [Unknown tool: <name>]; when it carries none, the
    handler does not reach the [switch] and resolves with the failure
    payload [No arguments provided].  Either way no [BazelClient] operation
    is invoked: no process is spawned and the session is unchanged. *)
Theorem callTool_declared_names
        (os : Host) (this : BazelClient) (request : CallToolRequest) :
  In (name request) (map tool_name listTools) ->
  (forall args : ToolArguments,
      dispatch os (name request) args
      = throw (JS.mkError ("Unknown tool: " ++ name request)))
  /\ (forall args : ToolArguments,
         arguments request = Some args ->
         callTool os request this
         = mkRun (Returned (error_payload ("Unknown tool: " ++ name request)))
                 this [])
  /\ (arguments request = None ->
      callTool os request this
      = mkRun (Returned (error_payload "No arguments provided")) this []).
Proof.
  destruct request as [n a]. cbn [name arguments].
  intros Hn.
  assert (Hd : forall args : ToolArguments,
             dispatch os n args = throw (JS.mkError ("Unknown tool: " ++ n))).
  { cbn in Hn.
    destruct Hn as [<-|[<-|[<-|[<-|[<-|[<-|[]]]]]]]; intros args; reflexivity. }
  repeat split.
  - exact Hd.
  - intros args ->. unfold callTool. cbn [arguments name]. rewrite Hd.
    cbn in Hn.
    destruct Hn as [<-|[<-|[<-|[<-|[<-|[<-|[]]]]]]]; reflexivity.
  - intros ->. reflexivity.
Qed.

Lemma callTool_declared_names_witness :
  callTool (posix_host [] [data Stdout "ok"; close (Some 0%Z)])
           (mkCallToolRequest
              "bazel_build_target"
              (Some (mkToolArguments (Some ["//app:server"]) None None None)))
           session
  = mkRun (Returned (error_payload "Unknown tool: bazel_build_target"))
          session [].
Proof.
  exact (proj1 (proj2 (callTool_declared_names
                         (posix_host [] [data Stdout "ok"; close (Some 0%Z)])
                         session
                         (mkCallToolRequest
                            "bazel_build_target"
                            (Some (mkToolArguments (Some ["//app:server"])
                                                   None None None)))
                         (or_introl eq_refl)))
               _ eq_refl).
Defined.

(** C2, as stated, fails: [bazel_fetch_dependencies] is a declared name,
    and a call of it that carries no arguments object resolves with
    [No arguments provided], not with [Unknown tool: ...]. *)
Lemma callTool_declared_name_without_arguments :
  let request := mkCallToolRequest "bazel_fetch_dependencies" None in
  In (name request) (map tool_name listTools)
  /\ outcome (callTool (posix_host [] []) request session)
     = Returned (error_payload "No arguments provided")
  /\ outcome (callTool (posix_host [] []) request session)
     <> Returned (error_payload "Unknown tool: bazel_fetch_dependencies").
Proof.
  intros request. repeat split.
  - cbn. tauto.
  - discriminate.
Qed.

(** C3, on the code.  The handler never reads [additionalArgs]: its result,
    the session it leaves and the processes it spawns are the same whether
    or not the arguments object carries that field.  A [build_target] call
    for [//app:server] with [additionalArgs: ["--verbose_failures"]] spawns
    Bazel with [["build", "//app:server"]] and nothing after the target. *)
Theorem callTool_ignores_additionalArgs
        (os : Host) (this : BazelClient) (tool : string)
        (targets : option (list string)) (pattern path : option string)
        (extra : option (list string)) :
  callTool os (mkCallToolRequest
                 tool (Some (mkToolArguments targets pattern path extra)))
           this
  = callTool os (mkCallToolRequest
                   tool (Some (mkToolArguments targets pattern path None)))
             this
  /\ invocations
       (trace (callTool os
                 (mkCallToolRequest
                    "build_target"
                    (Some (mkToolArguments (Some ["//app:server"]) None None
                                           (Some ["--verbose_failures"]))))
                 (mkBazelClient (bazelPath this) (workspacePath this) None)))
     = [(bazelPath this, ["build"; "//app:server"], workspacePath this)].
Proof.
  split.
  - reflexivity.
  - unfold callTool, try_catch, bind. cbn [arguments name].
    change (dispatch os "build_target"
              (mkToolArguments (Some ["//app:server"]) None None
                               (Some ["--verbose_failures"])))
      with (buildTargets os ["//app:server"] false).
    set (c := mkBazelClient (bazelPath this) (workspacePath this) None).
    destruct (bind_runBazelCommand os "build" ["//app:server"] false c
                (fun o => stdout o ++ JS.LF ++ stderr o))
      as (Htrace & _ & Hout).
    fold (buildTargets os ["//app:server"] false c) in Htrace, Hout.
    pose proof (runBazelCommand_invocations os "build" ["//app:server"]
                                            false c) as Hinv.
    rewrite <- Htrace in Hinv.
    destruct (outcome (buildTargets os ["//app:server"] false c));
      cbn; rewrite ?app_nil_r; exact Hinv.
Qed.

(** ** More on the command executor *)

(** The promise is unsettled after the listeners have run exactly when it
    was unsettled before and no [close] or [error] arrived. *)
Lemma listen_unsettled (hasOnOutput : bool) (events : list ChildEvent) :
  forall x : Executor,
    promise (listen hasOnOutput events x) = None
    <-> promise x = None /\ existsb settles events = false.
Proof.
  unfold listen.
  induction events as [|ev events IH]; intros x; simpl.
  - tauto.
  - rewrite IH, orb_false_iff.
    destruct ev as [[|] chunk|code|err]; simpl.
    + tauto.
    + tauto.
    + split; [intros [H _]|intros [_ [H _]]; discriminate H].
      destruct code as [[| |]|]; unfold settle in H;
        destruct (promise x) eqn:E; simpl in H; congruence.
    + split; [intros [H _]|intros [_ [H _]]; discriminate H].
      unfold settle in H.
      destruct (promise x) eqn:E; simpl in H; congruence.
Qed.

(** Every chunk is forwarded, whatever else the child does. *)
Lemma listen_calls (hasOnOutput : bool) (events : list ChildEvent) :
  forall x : Executor,
    calls (listen hasOnOutput events x)
    = (calls x
       ++ map onOutput (if hasOnOutput then data_chunks events else []))%list.
Proof.
  unfold listen.
  induction events as [|ev events IH]; intros x; simpl.
  - destruct hasOnOutput; simpl; now rewrite app_nil_r.
  - rewrite IH.
    destruct ev as [[|] chunk|code|err]; simpl.
    + destruct hasOnOutput; simpl; now rewrite <- app_assoc.
    + destruct hasOnOutput; simpl; now rewrite <- app_assoc.
    + destruct code as [[| |]|]; unfold settle; now destruct (promise x).
    + unfold settle; now destruct (promise x).
Qed.

(** The settlement of a child that writes [chunks] and then fails. *)
Lemma promise_after_error (hasOnOutput : bool)
      (chunks : list (Stream * string)) (err : JS.Error)
      (rest : list ChildEvent) :
  promise (listen hasOnOutput (arrivals chunks ++ error err :: rest)%list
                  (mkExecutor (mkOutput EmptyString EmptyString) None []))
  = Some (rejected err).
Proof.
  rewrite listen_app, listen_arrivals. simpl.
  apply listen_settled. reflexivity.
Qed.

(** X1.  The call settles exactly when the child emits a [close] or an
    [error] event: while neither has arrived the promise of
    [runBazelCommand] stays pending (there is no timeout), and as soon as
    one is among the events the call has returned or thrown. *)
Theorem runBazelCommand_pending_iff
        (os : Host) (this : BazelClient) (command : string)
        (args : list string) (hasOnOutput : bool)
        (events : list ChildEvent) :
  child os (bazelPath this) (fullArgs this command args) (workspacePath this)
  = spawned events ->
  (outcome (runBazelCommand os command args hasOnOutput this) = Pending
   <-> existsb settles events = false).
Proof.
  intros Hchild. unfold runBazelCommand. rewrite Hchild. cbn [outcome].
  pose proof (listen_unsettled hasOnOutput events
                (mkExecutor (mkOutput EmptyString EmptyString) None []))
    as Hiff.
  cbn [promise] in Hiff.
  destruct (promise (listen hasOnOutput events _)) as [[r|e]|].
  - split; [discriminate|]. intros H.
    destruct Hiff as [_ Hiff]. discriminate (Hiff (conj eq_refl H)).
  - split; [discriminate|]. intros H.
    destruct Hiff as [_ Hiff]. discriminate (Hiff (conj eq_refl H)).
  - split; [|reflexivity]. intros _. now apply Hiff.
Qed.

(** A build that writes progress and never exits. *)
Lemma runBazelCommand_pending_iff_witness :
  outcome (runBazelCommand
             (posix_host [] [data Stderr "Loading: 0 packages loaded"])
             "build" ["//app:server"] false session)
  = Pending.
Proof.
  apply (runBazelCommand_pending_iff
           (posix_host [] [data Stderr "Loading: 0 packages loaded"])
           session "build" ["//app:server"] false
           [data Stderr "Loading: 0 packages loaded"] eq_refl).
  reflexivity.
Defined.

(** X2.  A launch failure is reported as such: when the child emits [error]
    before any [close], the call fails with that very error, whatever
    arrived before and whatever follows (Node emits [close] with a negative
    code after a failed spawn); the exit-code message is not used. *)
Theorem launch_error_is_reported
        (os : Host) (this : BazelClient) (command : string)
        (args : list string) (hasOnOutput : bool)
        (chunks : list (Stream * string)) (err : JS.Error)
        (rest : list ChildEvent) :
  child os (bazelPath this) (fullArgs this command args) (workspacePath this)
  = spawned (arrivals chunks ++ error err :: rest)%list ->
  outcome (runBazelCommand os command args hasOnOutput this) = Thrown err.
Proof.
  intros Hchild. unfold runBazelCommand. rewrite Hchild. cbn [outcome].
  now rewrite promise_after_error.
Qed.

Lemma launch_error_is_reported_witness :
  outcome (runBazelCommand
             (posix_host [] [error (JS.mkError "spawn bazel ENOENT");
                             close (Some (-2)%Z)])
             "build" ["//app:server"] false session)
  = Thrown (JS.mkError "spawn bazel ENOENT").
Proof.
  exact (launch_error_is_reported
           (posix_host [] [error (JS.mkError "spawn bazel ENOENT");
                           close (Some (-2)%Z)])
           session "build" ["//app:server"] false []
           (JS.mkError "spawn bazel ENOENT") [close (Some (-2)%Z)] eq_refl).
Defined.

(** X3.  The first [close] or [error] decides: once the events of a child
    include one, no later event changes how the call ends. *)
Theorem first_settlement_wins
        (os os' : Host) (this : BazelClient) (command : string)
        (args : list string) (hasOnOutput : bool)
        (events later : list ChildEvent) :
  child os (bazelPath this) (fullArgs this command args) (workspacePath this)
  = spawned events ->
  child os' (bazelPath this) (fullArgs this command args) (workspacePath this)
  = spawned (events ++ later)%list ->
  existsb settles events = true ->
  outcome (runBazelCommand os' command args hasOnOutput this)
  = outcome (runBazelCommand os command args hasOnOutput this).
Proof.
  intros Hchild Hchild' Hsettled.
  unfold runBazelCommand. rewrite Hchild, Hchild'. cbn [outcome].
  rewrite listen_app.
  set (x := listen hasOnOutput events _).
  destruct (promise x) as [s|] eqn:Hp.
  - now rewrite (listen_settled hasOnOutput later x s Hp).
  - apply listen_unsettled in Hp. destruct Hp as [_ Hp].
    rewrite Hp in Hsettled. discriminate Hsettled.
Qed.

Lemma first_settlement_wins_witness :
  outcome (runBazelCommand
             (posix_host [] [data Stdout "ok"; close (Some 0%Z);
                             error (JS.mkError "late"); close (Some 1%Z)])
             "build" ["//app:server"] false session)
  = Returned (mkOutput "ok" EmptyString).
Proof.
  exact (first_settlement_wins
           (posix_host [] [data Stdout "ok"; close (Some 0%Z)])
           (posix_host [] [data Stdout "ok"; close (Some 0%Z);
                           error (JS.mkError "late"); close (Some 1%Z)])
           session "build" ["//app:server"] false
           [data Stdout "ok"; close (Some 0%Z)]
           [error (JS.mkError "late"); close (Some 1%Z)]
           eq_refl eq_refl eq_refl).
Defined.

(** X4.  A child ended by a signal closes with the code [null]: the call
    fails like a nonzero exit, with the message
    [Bazel command failed with code null: <stderr>]. *)
Theorem signal_exit_is_a_failure
        (os : Host) (this : BazelClient) (command : string)
        (args : list string) (hasOnOutput : bool)
        (chunks : list (Stream * string)) (rest : list ChildEvent) :
  child os (bazelPath this) (fullArgs this command args) (workspacePath this)
  = spawned (arrivals chunks ++ close None :: rest)%list ->
  outcome (runBazelCommand os command args hasOnOutput this)
  = Thrown (JS.mkError ("Bazel command failed with code null: "
                        ++ received Stderr chunks)).
Proof.
  intros Hchild. unfold runBazelCommand. rewrite Hchild. cbn [outcome].
  now rewrite promise_after_close.
Qed.

Lemma signal_exit_is_a_failure_witness :
  outcome (runBazelCommand
             (posix_host [] [data Stderr "Terminated"; close None])
             "test" ["//app:server_test"] false session)
  = Thrown (JS.mkError "Bazel command failed with code null: Terminated").
Proof.
  exact (signal_exit_is_a_failure
           (posix_host [] [data Stderr "Terminated"; close None])
           session "test" ["//app:server_test"] false
           [(Stderr, "Terminated")] [] eq_refl).
Defined.

(** X5.  The whole trace of a call: one [spawn], then, when a callback was
    supplied, one callback call per [data] event of the child in arrival
    order, also for chunks that arrive after the promise has settled;
    without a callback nothing is forwarded. *)
Theorem runBazelCommand_trace
        (os : Host) (this : BazelClient) (command : string)
        (args : list string) (hasOnOutput : bool)
        (events : list ChildEvent) :
  child os (bazelPath this) (fullArgs this command args) (workspacePath this)
  = spawned events ->
  trace (runBazelCommand os command args hasOnOutput this)
  = spawn (bazelPath this) (fullArgs this command args) (workspacePath this)
    :: map onOutput (if hasOnOutput then data_chunks events else []).
Proof.
  intros Hchild. unfold runBazelCommand. rewrite Hchild. cbn [trace].
  now rewrite listen_calls.
Qed.

Lemma runBazelCommand_trace_witness :
  trace (runBazelCommand
           (posix_host [] [data Stdout "a"; error (JS.mkError "EPIPE");
                           data Stderr "b"; close (Some 1%Z)])
           "query" ["//..."] true session)
  = [spawn "bazel" ["query"; "//..."] "/home/dev/project";
     onOutput "a"; onOutput "b"].
Proof.
  exact (runBazelCommand_trace
           (posix_host [] [data Stdout "a"; error (JS.mkError "EPIPE");
                           data Stderr "b"; close (Some 1%Z)])
           session "query" ["//..."] true
           [data Stdout "a"; error (JS.mkError "EPIPE");
            data Stderr "b"; close (Some 1%Z)] eq_refl).
Defined.

(** ** More on the operations *)



(** X7.  A nonzero exit code fails every operation alike: when the child
    that Bazel runs as closes with a nonzero code, [buildTargets],
    [queryTarget], [testTargets], [listTargets] and [fetchDependencies] all
    throw [Bazel command failed with code <code>: <stderr>]; none of them
    returns the output gathered so far, and [queryTarget] does not fall
    back to stderr. *)
Theorem operations_fail_on_nonzero_exit
        (os : Host) (this : BazelClient) (hasOnOutput : bool)
        (chunks : list (Stream * string)) (code : Z)
        (rest : list ChildEvent) :
  (forall (file : string) (argv : list string) (cwd : string),
      child os file argv cwd
      = spawned (arrivals chunks ++ close (Some code) :: rest)%list) ->
  code <> 0%Z ->
  let failure : Outcome string :=
    Thrown (JS.mkError ("Bazel command failed with code "
                        ++ JS.number_toString code ++ ": "
                        ++ received Stderr chunks)) in
  (forall targets, outcome (buildTargets os targets hasOnOutput this) = failure)
  /\ (forall pattern,
         outcome (queryTarget os pattern hasOnOutput this) = failure)
  /\ (forall targets,
         outcome (testTargets os targets hasOnOutput this) = failure)
  /\ (forall path, outcome (listTargets os path hasOnOutput this) = failure)
  /\ (forall targets,
         outcome (fetchDependencies os targets hasOnOutput this) = failure).
Proof.
  intros Hchild Hcode failure.
  assert (Hrun : forall command args (f : Output -> string),
             outcome (bind (runBazelCommand os command args hasOnOutput)
                           (fun o => ret (f o)) this) = failure).
  { intros command args f.
    destruct (bind_runBazelCommand os command args hasOnOutput this f)
      as (_ & _ & ->).
    rewrite (runBazelCommand_after_close os this command args hasOnOutput
               chunks code rest (Hchild _ _ _)).
    destruct code; [now elim Hcode | reflexivity | reflexivity]. }
  repeat split; intros; apply Hrun.
Qed.

Lemma operations_fail_on_nonzero_exit_witness :
  outcome (queryTarget
             (posix_host [] [data Stderr "ERROR: no such package";
                             close (Some 7%Z)])
             "deps(//missing)" false session)
  = Thrown (JS.mkError
              "Bazel command failed with code 7: ERROR: no such package").
Proof.
  exact (proj1 (proj2 (operations_fail_on_nonzero_exit
                         (posix_host [] [data Stderr "ERROR: no such package";
                                         close (Some 7%Z)])
                         session false
                         [(Stderr, "ERROR: no such package")] 7%Z []
                         (fun _ _ _ => eq_refl) ltac:(discriminate)))
               "deps(//missing)").
Defined.

(** X8.  [setWorkspacePath] succeeds exactly when something exists at the
    path and at least one of the three markers exists directly under it.
    Whether it succeeds or throws, it returns at once, spawns nothing, and
    never touches the binary path or the configuration override. *)
Theorem setWorkspacePath_succeeds_iff
        (os : Host) (this : BazelClient) (newPath : string) :
  let r := setWorkspacePath os newPath this in
  ((exists msg : string, outcome r = Returned msg)
   <-> existsSync os newPath = true
       /\ exists m : string,
         In m markers /\ existsSync os (path_join os newPath m) = true)
  /\ outcome r <> Pending
  /\ trace r = []
  /\ bazelPath (client r) = bazelPath this
  /\ workspaceConfig (client r) = workspaceConfig this.
Proof.
  intros r. subst r. unfold setWorkspacePath.
  rewrite <- isWorkspace_markers.
  destruct (existsSync os newPath); simpl.
  - destruct (isWorkspace os newPath); simpl.
    + split; [split|repeat split; discriminate].
      * intros _. now split.
      * intros _. now eexists.
    + split; [split|repeat split; discriminate].
      * intros [msg Hmsg]. discriminate Hmsg.
      * intros [_ Hw]. discriminate Hw.
  - split; [split|repeat split; discriminate].
    + intros [msg Hmsg]. discriminate Hmsg.
    + intros [He _]. discriminate He.
Qed.

(** ** More on the request handler *)

(** Without a callback the trace of [runBazelCommand] is its [spawn]. *)
Lemma runBazelCommand_trace_no_callback
      (os : Host) (command : string) (args : list string)
      (this : BazelClient) :
  trace (runBazelCommand os command args false this)
  = [spawn (bazelPath this) (fullArgs this command args)
           (workspacePath this)].
Proof.
  unfold runBazelCommand. destruct (child os _ _ _) as [e|events].
  - reflexivity.
  - cbn [trace]. now rewrite listen_calls.
Qed.

(** The handler around its [switch]: a returned string becomes the text of
    the result, a thrown error becomes the failure payload. *)
Lemma callTool_run (os : Host) (n : string) (a : ToolArguments)
      (this : BazelClient) :
  callTool os (mkCallToolRequest n (Some a)) this
  = mkRun (match outcome (dispatch os n a this) with
           | Returned s => Returned (text_content s)
           | Thrown e =>
               Returned (text_content (JS.JSON_stringify_error (JS.message e)))
           | Pending => Pending
           end)
          (client (dispatch os n a this))
          (trace (dispatch os n a this)).
Proof.
  unfold callTool, try_catch, bind, ret. cbn [arguments name].
  destruct (dispatch os n a this) as [[s|e|] c t]; cbn;
    now rewrite ?app_nil_r.
Qed.

(** The three shapes a case of the [switch] can take. *)
Lemma dispatch_cases (os : Host) (n : string) (a : ToolArguments) :
  (exists e : JS.Error, dispatch os n a = throw e)
  \/ (exists (command : string) (args : list string) (f : Output -> string),
         dispatch os n a
         = bind (runBazelCommand os command args false) (fun o => ret (f o)))
  \/ (n = "set_workspace_path"
      /\ exists p : string, dispatch os n a = setWorkspacePath os p).
Proof.
  unfold dispatch.
  destruct (n =? "build_target").
  { destruct (targets a) as [[|t ts]|]; [left; eauto | | left; eauto].
    right; left. do 3 eexists. reflexivity. }
  destruct (n =? "query_target").
  { destruct (pattern a) as [p|]; [|left; eauto].
    destruct (JS.truthy p); [|left; eauto].
    right; left. do 3 eexists. reflexivity. }
  destruct (n =? "test_target").
  { destruct (targets a) as [[|t ts]|]; [left; eauto | | left; eauto].
    right; left. do 3 eexists. reflexivity. }
  destruct (n =? "list_targets").
  { destruct (path a) as [p|]; [|left; eauto].
    destruct (JS.truthy p); [|left; eauto].
    right; left. do 3 eexists. reflexivity. }
  destruct (n =? "fetch_dependencies").
  { right; left. do 3 eexists. reflexivity. }
  destruct (String.eqb_spec n "set_workspace_path") as [->|_].
  { destruct (path a) as [p|]; [|left; eauto].
    destruct (JS.truthy p); [|left; eauto].
    right; right. split; [reflexivity|]. now exists p. }
  left; eauto.
Qed.

(** [setWorkspacePath] is synchronous, spawns nothing, and can only change
    the working directory. *)
Lemma setWorkspacePath_frame (os : Host) (this : BazelClient) (p : string) :
  outcome (setWorkspacePath os p this) <> Pending
  /\ trace (setWorkspacePath os p this) = []
  /\ bazelPath (client (setWorkspacePath os p this)) = bazelPath this
  /\ workspaceConfig (client (setWorkspacePath os p this))
     = workspaceConfig this.
Proof.
  unfold setWorkspacePath.
  destruct (existsSync os p); simpl;
    [destruct (isWorkspace os p); simpl|];
    repeat split; discriminate.
Qed.



(** X10.  A name the [switch] has no case for: when the request carries
    arguments and its name is none of the six dispatched names, the handler
    resolves with the failure payload for [Unknown tool: <name>], spawns
    nothing and leaves the session as it was. *)
Theorem callTool_unknown_tool
        (os : Host) (this : BazelClient) (n : string) (a : ToolArguments) :
  ~ In n dispatched ->
  callTool os (mkCallToolRequest n (Some a)) this
  = mkRun (Returned (text_content
                       (JS.JSON_stringify_error ("Unknown tool: " ++ n))))
          this [].
Proof.
  intros Hn. rewrite callTool_run.
  assert (Hd : dispatch os n a
               = throw (JS.mkError ("Unknown tool: " ++ n))).
  { unfold dispatch, dispatched in *.
    repeat match goal with
           | |- context [String.eqb n ?s] =>
               destruct (String.eqb_spec n s) as [->|_];
               [exfalso; apply Hn; simpl; tauto|]
           end.
    reflexivity. }
  now rewrite Hd.
Qed.

Lemma callTool_unknown_tool_witness :
  callTool (posix_host [] [data Stdout "ok"; close (Some 0%Z)])
           (mkCallToolRequest
              "Build_Target"
              (Some (mkToolArguments (Some ["//app:server"]) None None None)))
           session
  = mkRun (Returned (error_payload "Unknown tool: Build_Target")) session [].
Proof.
  apply (callTool_unknown_tool
           (posix_host [] [data Stdout "ok"; close (Some 0%Z)])
           session "Build_Target").
  simpl. intros [H|[H|[H|[H|[H|[H|[]]]]]]]; discriminate H.
Defined.

(** X11.  A required argument that is missing or empty is refused before
    anything runs: [build_target] and [test_target] without [targets] or
    with an empty list, [query_target] without [pattern] or with an empty
    one, [list_targets] and [set_workspace_path] without [path] or with an
    empty one all resolve with the failure payload
    [Missing required argument: <field>], spawn nothing and leave the
    session as it was. *)
Theorem callTool_missing_required
        (os : Host) (this : BazelClient) (a : ToolArguments) :
  (forall n : string,
      n = "build_target" \/ n = "test_target" ->
      targets a = None \/ targets a = Some [] ->
      callTool os (mkCallToolRequest n (Some a)) this
      = mkRun (Returned (error_payload "Missing required argument: targets"))
              this [])
  /\ (pattern a = None \/ pattern a = Some EmptyString ->
      callTool os (mkCallToolRequest "query_target" (Some a)) this
      = mkRun (Returned (error_payload "Missing required argument: pattern"))
              this [])
  /\ (forall n : string,
         n = "list_targets" \/ n = "set_workspace_path" ->
         path a = None \/ path a = Some EmptyString ->
         callTool os (mkCallToolRequest n (Some a)) this
         = mkRun (Returned (error_payload "Missing required argument: path"))
                 this []).
Proof.
  repeat split.
  - intros n [-> | ->] [H|H]; rewrite callTool_run; unfold dispatch;
      cbn [String.eqb Ascii.eqb Bool.eqb]; rewrite H; reflexivity.
  - intros [H|H]; rewrite callTool_run; unfold dispatch;
      cbn [String.eqb Ascii.eqb Bool.eqb]; rewrite H; reflexivity.
  - intros n [-> | ->] [H|H]; rewrite callTool_run; unfold dispatch;
      cbn [String.eqb Ascii.eqb Bool.eqb]; rewrite H; reflexivity.
Qed.

Lemma callTool_missing_required_witness :
  callTool (posix_host [] [data Stdout "ok"; close (Some 0%Z)])
           (mkCallToolRequest
              "build_target"
              (Some (mkToolArguments (Some []) None None None)))
           session
  = mkRun (Returned (error_payload "Missing required argument: targets"))
          session [].
Proof.
  exact (proj1 (callTool_missing_required
                  (posix_host [] [data Stdout "ok"; close (Some 0%Z)])
                  session (mkToolArguments (Some []) None None None))
               "build_target" (or_introl eq_refl) (or_intror eq_refl)).
Defined.

(** X12.  What a call can do to the session: no request ever changes the
    binary path or the configuration override, and only a request named
    [set_workspace_path] can change the working directory; after any other
    request the session is as it was. *)
Theorem callTool_session_frame
        (os : Host) (request : CallToolRequest) (this : BazelClient) :
  let r := callTool os request this in
  bazelPath (client r) = bazelPath this
  /\ workspaceConfig (client r) = workspaceConfig this
  /\ (name request <> "set_workspace_path" -> client r = this).
Proof.
  destruct request as [n [a|]]; cbv zeta; cbn [name].
  - rewrite callTool_run. cbn [client].
    destruct (dispatch_cases os n a)
      as [[e ->]|[(command & args & f & ->)|[-> [p ->]]]].
    + cbn. auto.
    + destruct (bind_runBazelCommand os command args false this f)
        as (_ & -> & _).
      auto.
    + pose proof (setWorkspacePath_frame os this p) as (_ & _ & Hb & Hc).
      repeat split; auto. intros H. now elim H.
  - cbn. auto.
Qed.

Lemma callTool_session_frame_witness :
  client (callTool
            (posix_host [("/srv/monorepo", Directory);
                         ("/srv/monorepo/WORKSPACE", RegularFile)]
                        [close (Some 0%Z)])
            (mkCallToolRequest
               "list_targets"
               (Some (mkToolArguments None None (Some "/srv/monorepo") None)))
            session)
  = session.
Proof.
  apply (proj2 (proj2 (callTool_session_frame
                         (posix_host [("/srv/monorepo", Directory);
                                      ("/srv/monorepo/WORKSPACE", RegularFile)]
                                     [close (Some 0%Z)])
                         (mkCallToolRequest
                            "list_targets"
                            (Some (mkToolArguments None None
                                                   (Some "/srv/monorepo") None)))
                         session))).
  discriminate.
Defined.

(** X13.  What a call can do to the outside: its trace is empty or a single
    [spawn] of the session's binary, in the session's working directory,
    with an argument vector built by [fullArgs] (so with the override flag
    first when one is set).  The handler passes no callback, so no chunk is
    ever forwarded while a command runs. *)
Theorem callTool_trace
        (os : Host) (request : CallToolRequest) (this : BazelClient) :
  let r := callTool os request this in
  (trace r = []
   \/ exists (command : string) (args : list string),
       trace r = [spawn (bazelPath this) (fullArgs this command args)
                        (workspacePath this)])
  /\ callbacks (trace r) = [].
Proof.
  destruct request as [n [a|]]; cbv zeta.
  - rewrite callTool_run. cbn [trace].
    destruct (dispatch_cases os n a)
      as [[e ->]|[(command & args & f & ->)|[-> [p ->]]]].
    + cbn. auto.
    + destruct (bind_runBazelCommand os command args false this f)
        as (-> & _ & _).
      rewrite runBazelCommand_trace_no_callback.
      split; [right; eauto | reflexivity].
    + pose proof (setWorkspacePath_frame os this p) as (_ & -> & _).
      auto.
  - cbn. auto.
Qed.

(** X14.  Switching and then building: after a [set_workspace_path] request
    for a path that exists and holds one of the markers, the next
    [build_target] request spawns Bazel in the new directory, with the
    same binary and the same override flag as before the switch. *)
Theorem set_workspace_path_then_build
        (os : Host) (this : BazelClient) (p t : string) (ts : list string) :
  p <> EmptyString ->
  existsSync os p = true ->
  (exists m : string,
      In m markers /\ existsSync os (path_join os p m) = true) ->
  let switch :=
    callTool os (mkCallToolRequest
                   "set_workspace_path"
                   (Some (mkToolArguments None None (Some p) None))) this in
  let build :=
    callTool os (mkCallToolRequest
                   "build_target"
                   (Some (mkToolArguments (Some (t :: ts)) None None None)))
             (client switch) in
  outcome switch
  = Returned (text_content ("Workspace path updated from "
                            ++ workspacePath this ++ " to " ++ p))
  /\ trace switch = []
  /\ trace build = [spawn (bazelPath this) (fullArgs this "build" (t :: ts)) p].
Proof.
  intros Hp He Hm switch build.
  apply isWorkspace_markers in Hm.
  assert (Hs : switch
               = mkRun (Returned (text_content
                                    ("Workspace path updated from "
                                     ++ workspacePath this ++ " to " ++ p)))
                       (mkBazelClient (bazelPath this) p
                                      (workspaceConfig this))
                       []).
  { subst switch. rewrite callTool_run. unfold dispatch.
    cbn [String.eqb Ascii.eqb Bool.eqb path].
    unfold JS.truthy.
    destruct (String.eqb_spec p EmptyString) as [->|_]; [now elim Hp|].
    cbn [negb]. unfold setWorkspacePath. rewrite He, Hm. reflexivity. }
  subst build. rewrite Hs. cbn [outcome trace client].
  repeat split.
  rewrite callTool_run. cbn [trace]. unfold dispatch.
  cbn [String.eqb Ascii.eqb Bool.eqb targets]. unfold buildTargets.
  destruct (bind_runBazelCommand
              os "build" (t :: ts) false
              (mkBazelClient (bazelPath this) p (workspaceConfig this))
              (fun o => stdout o ++ JS.LF ++ stderr o)) as (-> & _ & _).
  now rewrite runBazelCommand_trace_no_callback.
Qed.

Lemma set_workspace_path_then_build_witness :
  let os := posix_host [("/srv/monorepo", Directory);
                        ("/srv/monorepo/WORKSPACE.bazel", RegularFile)]
                       [close (Some 0%Z)] in
  let switch :=
    callTool os (mkCallToolRequest
                   "set_workspace_path"
                   (Some (mkToolArguments None None (Some "/srv/monorepo")
                                          None))) session in
  trace (callTool os (mkCallToolRequest
                        "build_target"
                        (Some (mkToolArguments (Some ["//app:server"]) None
                                               None None)))
                  (client switch))
  = [spawn "bazel" ["build"; "//app:server"] "/srv/monorepo"].
Proof.
  intros os switch.
  destruct (set_workspace_path_then_build
              os session "/srv/monorepo" "//app:server" []
              ltac:(discriminate) eq_refl) as (_ & _ & Hbuild).
  - exists "WORKSPACE.bazel". split; [simpl; auto | reflexivity].
  - exact Hbuild.
Defined.

(** X15.  How a [build_target] request ends once the child has closed:
    with exit code 0 the text of the result is stdout, a line feed, stderr,
    as they are; with a nonzero code the call still resolves, and the text
    is the JSON object whose [error] is
    [Bazel command failed with code <code>: <stderr>], quoted by
    [JSON.stringify]. *)
Theorem callTool_build_target_result
        (os : Host) (this : BazelClient) (t : string) (ts : list string)
        (chunks : list (Stream * string)) (code : Z)
        (rest : list ChildEvent) :
  child os (bazelPath this) (fullArgs this "build" (t :: ts))
        (workspacePath this)
  = spawned (arrivals chunks ++ close (Some code) :: rest)%list ->
  outcome (callTool os (mkCallToolRequest
                          "build_target"
                          (Some (mkToolArguments (Some (t :: ts)) None None
                                                 None))) this)
  = Returned
      (text_content
         (if (code =? 0)%Z
          then received Stdout chunks ++ JS.LF ++ received Stderr chunks
          else JS.JSON_stringify_error
                 ("Bazel command failed with code "
                  ++ JS.number_toString code ++ ": "
                  ++ received Stderr chunks))).
Proof.
  intros Hchild. rewrite callTool_run. cbn [outcome]. unfold dispatch.
  cbn [String.eqb Ascii.eqb Bool.eqb targets]. unfold buildTargets.
  destruct (bind_runBazelCommand os "build" (t :: ts) false this
              (fun o => stdout o ++ JS.LF ++ stderr o)) as (_ & _ & ->).
  rewrite (runBazelCommand_after_close os this "build" (t :: ts) false
             chunks code rest Hchild).
  now destruct code.
Qed.

Lemma callTool_build_target_result_witness :
  outcome (callTool
             (posix_host [] [data Stderr "ERROR: boom"; close (Some 1%Z)])
             (mkCallToolRequest
                "build_target"
                (Some (mkToolArguments (Some ["//app:server"]) None None
                                       None))) session)
  = Returned (error_payload "Bazel command failed with code 1: ERROR: boom").
Proof.
  exact (callTool_build_target_result
           (posix_host [] [data Stderr "ERROR: boom"; close (Some 1%Z)])
           session "//app:server" [] [(Stderr, "ERROR: boom")] 1%Z []
           eq_refl).
Defined.

(** ** Configuration *)

Lemma setting_envOverrides (env : string -> option string) (k : Setting)
      (config : Config.t) :
  setting k (envOverrides env config)
  = match present (env (variable k)) with
    | Some v => Some v
    | None => setting k config
    end.
Proof.
  unfold envOverrides.
  destruct k; cbn [variable];
    destruct (present (env "MCP_BAZEL_PATH")),
             (present (env "MCP_WORKSPACE_PATH")),
             (present (env "MCP_WORKSPACE_CONFIG")),
             (present (env "MCP_LOG_PATH")); reflexivity.
Qed.

Lemma setting_fileDefaults (env : string -> option string)
      (args : list string) (fileConfig : FileConfig) (k : Setting)
      (config : Config.t) :
  setting k (fileDefaults env args fileConfig config)
  = match fromFile env args (variable k) (flag k) (file_key k fileConfig) with
    | Some v => Some v
    | None => setting k config
    end.
Proof.
  unfold fileDefaults.
  destruct k; cbn [variable flag file_key];
    destruct (fromFile env args "MCP_BAZEL_PATH" "--bazel_path" _),
             (fromFile env args "MCP_WORKSPACE_PATH" "--workspace_path" _),
             (fromFile env args "MCP_WORKSPACE_CONFIG" "--workspace_config" _),
             (fromFile env args "MCP_LOG_PATH" "--log_path" _); reflexivity.
Qed.

(** One step of the loop over the command line. *)
Lemma parseArgs_step (arg value : string) (rest : list string)
      (config : Config.t) :
  parseArgs (arg :: value :: rest) config
  = if arg =? "--bazel_path" then parseArgs rest (assign config (BazelPath, value))
    else if arg =? "--workspace_path" then
      parseArgs rest (assign config (WorkspacePath, value))
    else if arg =? "--workspace_config" then
      parseArgs rest (assign config (WorkspaceConfig, value))
    else if arg =? "--log_path" then
      parseArgs rest (assign config (LogPath, value))
    else parseArgs (value :: rest) config.
Proof. reflexivity. Qed.

(** A setting whose flag is not on the command line is left alone. *)
Lemma setting_parseArgs_absent (k : Setting) (n : nat) :
  forall (args : list string) (config : Config.t),
    length args <= n ->
    args_includes args (flag k) = false ->
    setting k (parseArgs args config) = setting k config.
Proof.
  induction n as [|n IH]; intros args config Hlen Habs.
  - destruct args; [reflexivity | simpl in Hlen; lia].
  - destruct args as [|arg [|value rest]]; try reflexivity.
    unfold args_includes in Habs. cbn [existsb] in Habs.
    apply orb_false_iff in Habs. destruct Habs as [Harg Hrest].
    apply orb_false_iff in Hrest. destruct Hrest as [Hvalue Hrest].
    assert (Hr : length rest <= n) by (simpl in Hlen; lia).
    assert (Hvr : length (value :: rest) <= n) by (simpl in *; lia).
    assert (Hinc : args_includes (value :: rest) (flag k) = false).
    { unfold args_includes. cbn [existsb]. now rewrite Hvalue, Hrest. }
    rewrite parseArgs_step.
    destruct (String.eqb_spec arg "--bazel_path") as [->|_];
      [rewrite (IH rest _ Hr Hrest);
       destruct k; try reflexivity; discriminate Harg|].
    destruct (String.eqb_spec arg "--workspace_path") as [->|_];
      [rewrite (IH rest _ Hr Hrest);
       destruct k; try reflexivity; discriminate Harg|].
    destruct (String.eqb_spec arg "--workspace_config") as [->|_];
      [rewrite (IH rest _ Hr Hrest);
       destruct k; try reflexivity; discriminate Harg|].
    destruct (String.eqb_spec arg "--log_path") as [->|_];
      [rewrite (IH rest _ Hr Hrest);
       destruct k; try reflexivity; discriminate Harg|].
    apply (IH _ _ Hvr Hinc).
Qed.

(** X16.  The layers of the configuration, setting by setting.  A non-empty
    environment variable decides, over the command line and the file.
    Without it, a flag on the command line (anywhere, even in last position
    where it has no value) shuts out the file, and the setting is what the
    loop over the command line left.  Without either, a non-empty key of a
    parsed configuration file decides; otherwise the default stands
    ([bazel], the current directory, no override, no log path). *)
Theorem getConfig_precedence (p : Process) (k : Setting) :
  setting k (getConfig p)
  = match present (process_env p (variable k)) with
    | Some v => Some v
    | None =>
        if args_includes (process_args p) (flag k) then
          setting k (parseArgs (process_args p) (defaults (process_cwd p)))
        else
          match config_file p with
          | parsed fileConfig =>
              match present (file_key k fileConfig) with
              | Some v => Some v
              | None => setting k (defaults (process_cwd p))
              end
          | _ => setting k (defaults (process_cwd p))
          end
    end.
Proof.
  unfold getConfig. fold (defaults (process_cwd p)).
  assert (Hcli : args_includes (process_args p) (flag k) = false ->
                 setting k (parseArgs (process_args p)
                                      (defaults (process_cwd p)))
                 = setting k (defaults (process_cwd p))).
  { apply (setting_parseArgs_absent k (length (process_args p))). lia. }
  destruct (config_file p) as [| |fileConfig].
  - rewrite setting_envOverrides.
    destruct (present (process_env p (variable k))); [reflexivity|].
    destruct (args_includes (process_args p) (flag k)); auto.
  - rewrite setting_envOverrides.
    destruct (present (process_env p (variable k))); [reflexivity|].
    destruct (args_includes (process_args p) (flag k)); auto.
  - rewrite setting_fileDefaults, setting_envOverrides. unfold fromFile.
    destruct (present (process_env p (variable k))); [reflexivity|].
    destruct (args_includes (process_args p) (flag k)); [reflexivity|].
    destruct (present (file_key k fileConfig)); auto.
Qed.

(** X17.  On a command line made of flag and value pairs, the loop assigns
    the pairs from left to right, whatever the values look like (a value
    that spells a flag is still a value); the last pair for a setting
    therefore wins. *)
Theorem parseArgs_command_line
        (pairs : list (Setting * string)) (config : Config.t) :
  parseArgs (command_line pairs) config = fold_left assign pairs config
  /\ forall (k : Setting) (v : string),
      setting k (parseArgs (command_line (pairs ++ [(k, v)])%list) config)
      = Some v.
Proof.
  assert (H : forall ps c,
             parseArgs (command_line ps) c = fold_left assign ps c).
  { induction ps as [|[k v] ps IH]; intros c.
    - reflexivity.
    - change (command_line ((k, v) :: ps))
        with (flag k :: v :: command_line ps).
      rewrite parseArgs_step. destruct k; cbn; apply IH. }
  split; [apply H|].
  intros k v. rewrite H, fold_left_app. cbn [fold_left].
  now destruct k.
Qed.

(** X18.  Arguments that are not one of the four flags are passed over:
    a command line without any of the flags leaves the configuration as it
    is. *)
Theorem parseArgs_ignores_other_arguments
        (args : list string) (config : Config.t) :
  (forall k : Setting, args_includes args (flag k) = false) ->
  parseArgs args config = config.
Proof.
  intros Hno.
  pose proof (fun k => setting_parseArgs_absent k (length args) args config
                         (le_n _) (Hno k)) as H.
  pose proof (H BazelPath) as Hb. pose proof (H WorkspacePath) as Hw.
  pose proof (H WorkspaceConfig) as Hc. pose proof (H LogPath) as Hl.
  cbn [setting] in Hb, Hw, Hc, Hl.
  destruct (parseArgs args config) as [b w c l], config as [b' w' c' l'].
  cbn in *. congruence.
Qed.

Lemma parseArgs_ignores_other_arguments_witness :
  parseArgs ["--verbose"; "bazel_path"; "--bazel-path=/usr/bin/bazel"]
            (defaults "/home/dev/project")
  = defaults "/home/dev/project".
Proof.
  apply parseArgs_ignores_other_arguments.
  intros k. now destruct k.
Defined.

(** Two configurations with the same four settings are the same. *)
Lemma config_ext (c c' : Config.t) :
  (forall k : Setting, setting k c = setting k c') -> c = c'.
Proof.
  intros H.
  pose proof (H BazelPath) as Hb. pose proof (H WorkspacePath) as Hw.
  pose proof (H WorkspaceConfig) as Hc. pose proof (H LogPath) as Hl.
  destruct c, c'. cbn in *. congruence.
Qed.

(** X19.  Started without any of the four flags, without the four
    environment variables and without a parsed configuration file, the
    server runs the binary [bazel] in the directory it was started in,
    without override flag: a [build_target] request spawns
    [bazel build <targets>] there. *)
Theorem main_defaults
        (os : Host) (p : Process) (t : string) (ts : list string) :
  (forall k : Setting, args_includes (process_args p) (flag k) = false) ->
  (forall k : Setting, present (process_env p (variable k)) = None) ->
  (forall fileConfig : FileConfig, config_file p <> parsed fileConfig) ->
  main_bazelClient p = mkBazelClient "bazel" (process_cwd p) None
  /\ trace (callTool os
              (mkCallToolRequest
                 "build_target"
                 (Some (mkToolArguments (Some (t :: ts)) None None None)))
              (main_bazelClient p))
     = [spawn "bazel" ("build" :: t :: ts) (process_cwd p)].
Proof.
  intros Hargs Henv Hfile.
  assert (Hcfg : getConfig p = defaults (process_cwd p)).
  { apply config_ext. intros k. unfold getConfig.
    fold (defaults (process_cwd p)).
    destruct (config_file p) as [| |fileConfig];
      [| |now elim (Hfile fileConfig)];
      rewrite setting_envOverrides, Henv;
      apply (setting_parseArgs_absent k (length (process_args p)));
      auto. }
  assert (Hclient : main_bazelClient p
                    = mkBazelClient "bazel" (process_cwd p) None).
  { unfold main_bazelClient. now rewrite Hcfg. }
  split; [exact Hclient|]. rewrite Hclient, callTool_run. cbn [trace].
  unfold dispatch. cbn [String.eqb Ascii.eqb Bool.eqb targets].
  unfold buildTargets.
  destruct (bind_runBazelCommand
              os "build" (t :: ts) false
              (mkBazelClient "bazel" (process_cwd p) None)
              (fun o => stdout o ++ JS.LF ++ stderr o)) as (-> & _ & _).
  now rewrite runBazelCommand_trace_no_callback.
Qed.

Lemma main_defaults_witness :
  trace (callTool (posix_host [] [close (Some 0%Z)])
                  (mkCallToolRequest
                     "build_target"
                     (Some (mkToolArguments (Some ["//app:server"]) None None
                                            None)))
                  (main_bazelClient
                     (mkProcess ["--verbose"] (fun _ => None)
                                "/home/dev/project" unreadable)))
  = [spawn "bazel" ["build"; "//app:server"] "/home/dev/project"].
Proof.
  apply (main_defaults (posix_host [] [close (Some 0%Z)])
                       (mkProcess ["--verbose"] (fun _ => None)
                                  "/home/dev/project" unreadable)).
  - intros k. now destruct k.
  - intros k. reflexivity.
  - discriminate.
Defined.

(** X20.  A configuration override from the environment reaches every
    command: when [MCP_WORKSPACE_CONFIG] is set and non-empty, whatever the
    command line and the configuration file say, each process that a
    request spawns gets [--bazelrc=<that value>] as its first argument,
    before the subcommand. *)
Theorem env_override_reaches_bazel
        (os : Host) (p : Process) (cfg : string)
        (request : CallToolRequest) :
  present (process_env p "MCP_WORKSPACE_CONFIG") = Some cfg ->
  let this := main_bazelClient p in
  let r := callTool os request this in
  workspaceConfig this = Some cfg
  /\ (trace r = []
      \/ exists (command : string) (args : list string),
          trace r = [spawn (bazelPath this)
                           (("--bazelrc=" ++ cfg) :: command :: args)
                           (workspacePath this)]).
Proof.
  intros Henv this r.
  assert (Hcfg : workspaceConfig this = Some cfg).
  { subst this. unfold main_bazelClient. cbn [workspaceConfig].
    change (Config.workspaceConfig (getConfig p))
      with (setting WorkspaceConfig (getConfig p)).
    unfold getConfig. destruct (config_file p) as [| |fileConfig].
    - rewrite setting_envOverrides. cbn [variable]. now rewrite Henv.
    - rewrite setting_envOverrides. cbn [variable]. now rewrite Henv.
    - rewrite setting_fileDefaults, setting_envOverrides. unfold fromFile.
      cbn [variable]. now rewrite Henv. }
  assert (Htruthy : JS.truthy cfg = true).
  { unfold present in Henv.
    destruct (process_env p "MCP_WORKSPACE_CONFIG") as [s|];
      [|discriminate Henv].
    destruct (JS.truthy s) eqn:Hs; [|discriminate Henv].
    now injection Henv as <-. }
  assert (Hfull : forall command args,
             fullArgs this command args
             = ("--bazelrc=" ++ cfg) :: command :: args).
  { intros command args. unfold fullArgs. now rewrite Hcfg, Htruthy. }
  split; [exact Hcfg|]. subst r.
  destruct request as [n [a|]].
  - rewrite callTool_run. cbn [trace].
    destruct (dispatch_cases os n a)
      as [[e ->]|[(command & args & f & ->)|[-> [q ->]]]].
    + now left.
    + destruct (bind_runBazelCommand os command args false this f)
        as (-> & _ & _).
      rewrite runBazelCommand_trace_no_callback, Hfull. right; eauto.
    + pose proof (setWorkspacePath_frame os this q) as (_ & -> & _).
      now left.
  - now left.
Qed.

Lemma env_override_reaches_bazel_witness :
  trace (callTool
           (posix_host [] [close (Some 0%Z)])
           (mkCallToolRequest
              "query_target"
              (Some (mkToolArguments None (Some "//...") None None)))
           (main_bazelClient
              (mkProcess
                 ["--workspace_config"; "/etc/cli.bazelrc"]
                 (fun v => if v =? "MCP_WORKSPACE_CONFIG"
                           then Some "/etc/env.bazelrc" else None)
                 "/home/dev/project" no_file)))
  = [spawn "bazel" ["--bazelrc=/etc/env.bazelrc"; "query"; "//..."]
           "/home/dev/project"].
Proof.
  destruct (env_override_reaches_bazel
              (posix_host [] [close (Some 0%Z)])
              (mkProcess
                 ["--workspace_config"; "/etc/cli.bazelrc"]
                 (fun v => if v =? "MCP_WORKSPACE_CONFIG"
                           then Some "/etc/env.bazelrc" else None)
                 "/home/dev/project" no_file)
              "/etc/env.bazelrc"
              (mkCallToolRequest
                 "query_target"
                 (Some (mkToolArguments None (Some "//...") None None)))
              eq_refl) as (_ & [H|(command & args & H)]).
  - discriminate H.
  - reflexivity.
Defined.

(** ** Logging of a command *)

Lemma log_all_app (logPath : string) (DEBUG : option string)
      (clock : nat -> string) (cs cs' : list Log.Call) :
  forall n : nat,
    log_all logPath DEBUG clock n (cs ++ cs')%list
    = (log_all logPath DEBUG clock n cs
       ++ log_all logPath DEBUG clock (n + length cs) cs')%list.
Proof.
  induction cs as [|c cs IH]; intros n; simpl.
  - now rewrite Nat.add_0_r.
  - now rewrite IH, <- app_assoc, Nat.add_succ_r.
Qed.

Lemma console_lines_app (ws ws' : list Log.Write) :
  console_lines (ws ++ ws')%list = (console_lines ws ++ console_lines ws')%list.
Proof.
  induction ws as [|[f t|l] ws IH]; simpl; now rewrite ?IH.
Qed.

Lemma file_text_app (ws ws' : list Log.Write) :
  file_text (ws ++ ws')%list = (file_text ws ++ file_text ws')%list.
Proof.
  induction ws as [|[f t|l] ws IH]; simpl; now rewrite ?IH.
Qed.

(** What one call leaves on the console. *)
Lemma console_lines_log (logPath : string) (DEBUG : option string)
      (timestamp : string) (c : Log.Call) :
  console_lines (log logPath DEBUG timestamp c)
  = if Log.toConsole c then
      match Log.level c, present DEBUG with
      | Log.info, None => []
      | _, _ => [timestamp ++ ": " ++ Log.message c]
      end
    else [].
Proof.
  unfold log. rewrite console_lines_app.
  destruct (JS.truthy logPath), (Log.toConsole c), (Log.level c),
    (present DEBUG); reflexivity.
Qed.

(** What one call appends to the log file. *)
Lemma file_text_log (logPath : string) (DEBUG : option string)
      (timestamp : string) (c : Log.Call) :
  file_text (log logPath DEBUG timestamp c)
  = if JS.truthy logPath
    then [timestamp ++ ": " ++ Log.message c ++ JS.LF] else [].
Proof.
  unfold log. rewrite file_text_app.
  destruct (JS.truthy logPath), (Log.toConsole c), (Log.level c),
    (present DEBUG); cbn; now rewrite ?append_assoc.
Qed.

(** The call that mirrors a chunk. *)
Definition chunk_call (c : Stream * string) : Log.Call :=
  Log.mk (stream_label (fst c) ++ ": " ++ snd c) Log.info false.

(** The [log] calls of a child that writes [chunks] and then goes on. *)
Lemma listen_log_arrivals (hasOnOutput : bool)
      (chunks : list (Stream * string)) (rest : list ChildEvent) :
  forall x : Executor,
    listen_log hasOnOutput (arrivals chunks ++ rest)%list x
    = (map chunk_call chunks
       ++ listen_log hasOnOutput rest
            (listen hasOnOutput (arrivals chunks) x))%list.
Proof.
  induction chunks as [|[s chunk] chunks IH]; intros x.
  - reflexivity.
  - cbn [arrivals map app listen_log fst snd]. rewrite IH.
    destruct s; reflexivity.
Qed.

(** Chunk lines go to the file only, at any debug setting. *)
Lemma log_all_chunk_calls (logPath : string) (DEBUG : option string)
      (clock : nat -> string) (chunks : list (Stream * string)) :
  forall n : nat,
    console_lines (log_all logPath DEBUG clock n (map chunk_call chunks)) = []
    /\ (JS.truthy logPath = true ->
        file_text (log_all logPath DEBUG clock n (map chunk_call chunks))
        = chunk_lines clock n chunks).
Proof.
  induction chunks as [|[s chunk] chunks IH]; intros n.
  - now split.
  - destruct (IH (S n)) as [Hc Hf]. cbn [map log_all chunk_lines]. split.
    + now rewrite console_lines_app, Hc, console_lines_log.
    + intros Hlog.
      rewrite file_text_app, (Hf Hlog), file_text_log, Hlog.
      cbn [chunk_call Log.message fst snd app]. f_equal. f_equal.
      now rewrite append_assoc.
Qed.

(** X21.  A command that succeeds is silent on the console: unless [DEBUG]
    is set, nothing of a run that ends with exit code 0 is written to the
    console, neither the command line, nor any chunk, nor the exit code. *)
Theorem successful_command_is_silent
        (os : Host) (this : BazelClient) (command : string)
        (args : list string) (hasOnOutput : bool)
        (chunks : list (Stream * string))
        (logPath : string) (DEBUG : option string) (clock : nat -> string)
        (n : nat) :
  child os (bazelPath this) (fullArgs this command args) (workspacePath this)
  = spawned (arrivals chunks ++ [close (Some 0%Z)])%list ->
  present DEBUG = None ->
  console_lines
    (log_all logPath DEBUG clock n
             (runBazelCommand_log os command args hasOnOutput this))
  = [].
Proof.
  intros Hchild Hdebug. unfold runBazelCommand_log. rewrite Hchild.
  rewrite listen_log_arrivals. cbn [listen_log listener_log app].
  cbn [log_all]. rewrite console_lines_app, log_all_app, console_lines_app.
  destruct (log_all_chunk_calls logPath DEBUG clock chunks (S n)) as [-> _].
  cbn [log_all]. rewrite console_lines_app, !console_lines_log, Hdebug.
  reflexivity.
Qed.

Lemma successful_command_is_silent_witness :
  console_lines
    (log_all "/var/log/bazel-mcp.log" None
             (fun n => "2025-04-01T12:00:0" ++ JS.number_toString (Z.of_nat n)
                       ++ ".000Z")
             0
             (runBazelCommand_log
                (posix_host [] [data Stderr "INFO: Build completed";
                                close (Some 0%Z)])
                "build" ["//app:server"] false session))
  = [].
Proof.
  exact (successful_command_is_silent
           (posix_host [] [data Stderr "INFO: Build completed";
                           close (Some 0%Z)])
           session "build" ["//app:server"] false
           [(Stderr, "INFO: Build completed")]
           "/var/log/bazel-mcp.log" None _ 0 eq_refl eq_refl).
Defined.

(** X22.  A command that fails is reported on the console whatever the
    debug setting: without [DEBUG], the one line a run with a nonzero exit
    code writes to the console is the time of the call followed by
    [Bazel command failed with code <code>: <stderr>]. *)
Theorem failed_command_reaches_console
        (os : Host) (this : BazelClient) (command : string)
        (args : list string) (hasOnOutput : bool)
        (chunks : list (Stream * string)) (code : Z)
        (logPath : string) (DEBUG : option string) (clock : nat -> string) :
  child os (bazelPath this) (fullArgs this command args) (workspacePath this)
  = spawned (arrivals chunks ++ [close (Some code)])%list ->
  code <> 0%Z ->
  present DEBUG = None ->
  console_lines
    (log_all logPath DEBUG clock 0
             (runBazelCommand_log os command args hasOnOutput this))
  = [clock (length chunks + 2) ++ ": Bazel command failed with code "
     ++ JS.number_toString code ++ ": " ++ received Stderr chunks].
Proof.
  intros Hchild Hcode Hdebug. unfold runBazelCommand_log. rewrite Hchild.
  rewrite listen_log_arrivals, listen_arrivals.
  assert (Hlast : listener_log
                    (mkExecutor
                       (mkOutput (EmptyString ++ received Stdout chunks)
                                 (EmptyString ++ received Stderr chunks))
                       None
                       ([] ++ flat_map
                                (fun c => forward hasOnOutput (snd c))
                                chunks)%list)
                    (close (Some code))
                  = [Log.mk ("Command completed with exit code: "
                             ++ JS.number_toString code) Log.info true;
                     Log.mk ("Bazel command failed with code "
                             ++ JS.number_toString code ++ ": "
                             ++ received Stderr chunks) Log.error true]).
  { destruct code; [now elim Hcode | reflexivity | reflexivity]. }
  cbn [listen_log acc stdout stderr promise calls].
  rewrite Hlast. cbn [app log_all].
  rewrite console_lines_app, log_all_app, console_lines_app.
  destruct (log_all_chunk_calls logPath DEBUG clock chunks 1) as [-> _].
  rewrite length_map.
  replace (1 + length chunks) with (length chunks + 1) by lia.
  replace (length chunks + 2) with (S (length chunks + 1)) by lia.
  cbn [log_all].
  rewrite !console_lines_app, !console_lines_log, Hdebug.
  reflexivity.
Qed.

Lemma failed_command_reaches_console_witness :
  console_lines
    (log_all EmptyString None (fun n => "T" ++ JS.number_toString (Z.of_nat n))
             0
             (runBazelCommand_log
                (posix_host [] [data Stdout "partial"; data Stderr "boom";
                                close (Some 1%Z)])
                "build" ["//app:server"] false session))
  = ["T4: Bazel command failed with code 1: boom"].
Proof.
  exact (failed_command_reaches_console
           (posix_host [] [data Stdout "partial"; data Stderr "boom";
                           close (Some 1%Z)])
           session "build" ["//app:server"] false
           [(Stdout, "partial"); (Stderr, "boom")] 1%Z
           EmptyString None
           (fun n => "T" ++ JS.number_toString (Z.of_nat n))
           eq_refl ltac:(discriminate) eq_refl).
Defined.

(** X23.  With a log path configured, the log file receives the whole run
    at any debug setting: the command line with the working directory, then
    one line per chunk in arrival order, each labelled [STDOUT] or [STDERR]
    after its stream, then the exit code; every line starts with the time
    of its call and ends with a line feed. *)
Theorem log_file_records_the_run
        (os : Host) (this : BazelClient) (command : string)
        (args : list string) (hasOnOutput : bool)
        (chunks : list (Stream * string))
        (logPath : string) (DEBUG : option string) (clock : nat -> string) :
  child os (bazelPath this) (fullArgs this command args) (workspacePath this)
  = spawned (arrivals chunks ++ [close (Some 0%Z)])%list ->
  logPath <> EmptyString ->
  file_text
    (log_all logPath DEBUG clock 0
             (runBazelCommand_log os command args hasOnOutput this))
  = (clock 0 ++ ": Running command: " ++ bazelPath this ++ " "
     ++ String.concat " " (fullArgs this command args)
     ++ " in directory: " ++ workspacePath this ++ JS.LF)
    :: (chunk_lines clock 1 chunks
        ++ [(clock (length chunks + 1)
             ++ ": Command completed with exit code: 0" ++ JS.LF)%string])%list.
Proof.
  intros Hchild Hlog.
  assert (Ht : JS.truthy logPath = true).
  { unfold JS.truthy.
    destruct (String.eqb_spec logPath EmptyString);
      [now elim Hlog | reflexivity]. }
  unfold runBazelCommand_log. rewrite Hchild.
  rewrite listen_log_arrivals. cbn [listen_log listener_log app].
  cbn [log_all]. rewrite file_text_app, log_all_app, file_text_app.
  destruct (log_all_chunk_calls logPath DEBUG clock chunks 1) as [_ Hf].
  rewrite (Hf Ht), length_map.
  replace (1 + length chunks) with (length chunks + 1) by lia.
  cbn [log_all]. rewrite file_text_app, !file_text_log, Ht.
  cbn [Log.message app file_text JS.code_toString].
  f_equal.
  now repeat (rewrite append_assoc; cbn [append]).
Qed.

Lemma log_file_records_the_run_witness :
  file_text
    (log_all "/var/log/bazel-mcp.log" (Some "true")
             (fun n => "T" ++ JS.number_toString (Z.of_nat n)) 0
             (runBazelCommand_log
                (posix_host [] [data Stdout "x"; data Stderr "x";
                                close (Some 0%Z)])
                "query" ["//..."] false session))
  = ["T0: Running command: bazel query //... in directory: /home/dev/project"
     ++ JS.LF;
     "T1: STDOUT: x" ++ JS.LF;
     "T2: STDERR: x" ++ JS.LF;
     "T3: Command completed with exit code: 0" ++ JS.LF].
Proof.
  exact (log_file_records_the_run
           (posix_host [] [data Stdout "x"; data Stderr "x";
                           close (Some 0%Z)])
           session "query" ["//..."] false
           [(Stdout, "x"); (Stderr, "x")]
           "/var/log/bazel-mcp.log" (Some "true")
           (fun n => "T" ++ JS.number_toString (Z.of_nat n))
           eq_refl ltac:(discriminate)).
Defined.

(** A directory with a marker is accepted; the regular file of the same
    host is not. *)
Lemma setWorkspacePath_succeeds_iff_witness :
  let os := posix_host [("/srv/monorepo", Directory);
                        ("/srv/monorepo/WORKSPACE", RegularFile);
                        ("/srv/notes.txt", RegularFile)] [] in
  (exists msg : string,
      outcome (setWorkspacePath os "/srv/monorepo" session) = Returned msg)
  /\ ~ (exists msg : string,
           outcome (setWorkspacePath os "/srv/notes.txt" session)
           = Returned msg).
Proof.
  intros os. split.
  - apply (proj1 (setWorkspacePath_succeeds_iff os session "/srv/monorepo")).
    split; [reflexivity|].
    exists "WORKSPACE". split; [simpl; auto | reflexivity].
  - intros H.
    apply (proj1 (setWorkspacePath_succeeds_iff os session "/srv/notes.txt"))
      in H.
    destruct H as (_ & m & [<-|[<-|[<-|[]]]] & Hm); discriminate Hm.
Defined.
